(** * QR codes datastore and scan redirects (web/qr-codes-db.ts)

    A shallow embedding of [QRCodesDatastore] and of the two URL helpers
    [productViewURL] and [productCheckoutURL], with the properties of the
    record store and of the destination resolver stated over it.

    The code leans on three platform services, modelled here as far as the
    code observes them:
    - the WHATWG [URL] class (constructor, [pathname] setter,
      [searchParams.append], [toString]);
    - [String.prototype.replace] with the variant-id regular expression;
    - the sqlite3 driver behind [__query].

    Conventions of the model:
    - JavaScript strings are modelled by [string], read as the UTF-8 bytes of
      the text, so that percent-encoding works byte by byte;
    - an identifier is modelled by the integer it denotes (the [id] column is
      an INTEGER PRIMARY KEY, and SQLite compares a bound text with it as a
      number);
    - the integers of the table reach JavaScript as numbers, that is as
      doubles: exact up to [Number.MAX_SAFE_INTEGER], rounded beyond
      ([js_number]);
    - an [async] method is a function from the database to a completion
      (a value or a thrown error) and the database it leaves;
    - the table is taken as [init] leaves it: created, with the declared
      columns. *)

From Stdlib Require Import ZArith NArith Ascii String DecimalString Lia.
From Stdlib Require DecimalPos DecimalZ.
From stdpp Require Import gmap strings list fin_maps.

#[local] Open Scope Z_scope.

(** ** Characters and strings *)

Module Chars.

Definition code (c : ascii) : N := N_of_ascii c.

Definition in_range (lo hi : N) (c : ascii) : bool :=
  ((lo <=? code c) && (code c <=? hi))%N.

Definition is_code (n : N) (c : ascii) : bool := (code c =? n)%N.

Definition is_digit (c : ascii) : bool := in_range 48 57 c.
Definition is_upper_alpha (c : ascii) : bool := in_range 65 90 c.
Definition is_lower_alpha (c : ascii) : bool := in_range 97 122 c.
Definition is_alpha (c : ascii) : bool := is_upper_alpha c || is_lower_alpha c.
Definition is_alphanumeric (c : ascii) : bool := is_digit c || is_alpha c.

Definition to_lower (c : ascii) : ascii :=
  if is_upper_alpha c then ascii_of_N (code c + 32) else c.

(** U+0000 to U+0020: "C0 control or space". *)
Definition is_c0_control_or_space (c : ascii) : bool := (code c <=? 32)%N.

(** U+0009, U+000A, U+000D: "ASCII tab or newline". *)
Definition is_tab_or_newline (c : ascii) : bool :=
  is_code 9 c || is_code 10 c || is_code 13 c.

Definition is_slash (c : ascii) : bool := is_code 47 c.
Definition is_backslash (c : ascii) : bool := is_code 92 c.

(** The double quote, built from its code. *)
Definition dquote : ascii := ascii_of_N 34.

Definition hex_digit (n : N) : ascii :=
  if (n <? 10)%N then ascii_of_N (48 + n) else ascii_of_N (55 + n).

End Chars.

Module Str.

Fixpoint forallb (p : ascii -> bool) (s : string) : bool :=
  match s with
  | EmptyString => true
  | String c r => p c && forallb p r
  end.

Fixpoint existsb (p : ascii -> bool) (s : string) : bool :=
  match s with
  | EmptyString => false
  | String c r => p c || existsb p r
  end.

Fixpoint filter (p : ascii -> bool) (s : string) : string :=
  match s with
  | EmptyString => EmptyString
  | String c r => if p c then String c (filter p r) else filter p r
  end.

Fixpoint map (f : ascii -> ascii) (s : string) : string :=
  match s with
  | EmptyString => EmptyString
  | String c r => String (f c) (map f r)
  end.

Fixpoint concat_map (f : ascii -> string) (s : string) : string :=
  match s with
  | EmptyString => EmptyString
  | String c r => f c +:+ concat_map f r
  end.

Fixpoint drop_while (p : ascii -> bool) (s : string) : string :=
  match s with
  | EmptyString => EmptyString
  | String c r => if p c then drop_while p r else s
  end.

(** Drops the longest suffix whose characters all satisfy [p]. *)
Fixpoint drop_while_end (p : ascii -> bool) (s : string) : string :=
  match s with
  | EmptyString => EmptyString
  | String c r =>
      match drop_while_end p r with
      | EmptyString => if p c then EmptyString else String c EmptyString
      | r' => String c r'
      end
  end.

(** The longest prefix whose characters satisfy [p], and the rest. *)
Fixpoint span (p : ascii -> bool) (s : string) : string * string :=
  match s with
  | EmptyString => (EmptyString, EmptyString)
  | String c r =>
      if p c then let '(a, b) := span p r in (String c a, b)
      else (EmptyString, s)
  end.

(** [strip_prefix p s] is [Some r] when [s = p +:+ r]. *)
Fixpoint strip_prefix (p s : string) : option string :=
  match p, s with
  | EmptyString, _ => Some s
  | String a p', String b s' => if decide (a = b) then strip_prefix p' s' else None
  | String _ _, EmptyString => None
  end.

Definition is_empty (s : string) : bool :=
  match s with EmptyString => true | String _ _ => false end.

(** Decimal rendering of an integer, as a template literal prints a
    JavaScript number that holds one (the statements use it for safe
    integers, which a number prints digit by digit). *)
Definition of_Z (z : Z) : string := NilZero.string_of_int (Z.to_int z).

Definition of_N (n : N) : string := NilZero.string_of_uint (N.to_uint n).

End Str.

(** ** The WHATWG URL class

    The part of the URL Standard that the helpers exercise: the record of a
    parsed URL, the percent-encode sets, the path state of the parser as the
    [pathname] setter runs it, the query serializer behind
    [searchParams.append], and the URL serializer behind [toString]. *)

Module URL.
Import Chars.

Inductive Path : Type :=
  | Opaque (s : string)
  | Segments (l : list string).

Record t : Type := mk {
  scheme : string;
  username : string;
  password : string;
  host : option string;      (* the serialized host, null when absent *)
  port : option N;
  path : Path;
  query : option string;
  fragment : option string
}.

Definition set_path (p : Path) (u : t) : t :=
  mk (scheme u) (username u) (password u) (host u) (port u) p (query u) (fragment u).

Definition set_query (q : option string) (u : t) : t :=
  mk (scheme u) (username u) (password u) (host u) (port u) (path u) q (fragment u).

Definition special_schemes : list string :=
  ["ftp"; "file"; "http"; "https"; "ws"; "wss"].

Definition is_special (u : t) : bool := bool_decide (scheme u ∈ special_schemes).

Definition has_opaque_path (u : t) : bool :=
  match path u with Opaque _ => true | Segments _ => false end.

(** *** Percent-encode sets

    As the URL class of the runtime has them. Its path percent-encode set
    leaves "^" alone (later editions of the URL Standard add it to that set);
    "^" enters with the userinfo set. *)

Definition c0_control_set (c : ascii) : bool :=
  ((code c <=? 31) || (126 <? code c))%N.

Definition query_set (c : ascii) : bool :=
  c0_control_set c || is_code 32 c || is_code 34 c || is_code 35 c
  || is_code 60 c || is_code 62 c.

Definition path_set (c : ascii) : bool :=
  query_set c || is_code 63 c || is_code 96 c
  || is_code 123 c || is_code 125 c.

Definition userinfo_set (c : ascii) : bool :=
  path_set c || is_code 47 c || is_code 58 c || is_code 59 c || is_code 61 c
  || is_code 64 c || in_range 91 94 c || is_code 124 c.

Definition component_set (c : ascii) : bool :=
  userinfo_set c || in_range 36 38 c || is_code 43 c || is_code 44 c.

Definition urlencoded_set (c : ascii) : bool :=
  component_set c || is_code 33 c || in_range 39 41 c || is_code 126 c.

(** "%" followed by the two upper-case hexadecimal digits of the byte. *)
Definition percent_encode_byte (c : ascii) : string :=
  String "%" (String (hex_digit (code c / 16)) (String (hex_digit (code c mod 16)) EmptyString)).

Definition utf8_percent_encode (set : ascii -> bool) (c : ascii) : string :=
  if set c then percent_encode_byte c else String c EmptyString.

(** Percent-encode after encoding, with UTF-8. *)
Definition percent_encode_after_encoding
    (set : ascii -> bool) (spaceAsPlus : bool) (input : string) : string :=
  Str.concat_map
    (fun c => if spaceAsPlus && is_code 32 c then "+" else utf8_percent_encode set c)
    input.

(** *** Path segments *)

Definition lower (s : string) : string := Str.map to_lower s.

Definition is_single_dot (buffer : string) : bool :=
  bool_decide (lower buffer ∈ ["."; "%2e"]).

Definition is_double_dot (buffer : string) : bool :=
  bool_decide (lower buffer ∈ [".."; ".%2e"; "%2e."; "%2e%2e"]).

Definition is_windows_drive_letter (buffer : string) : bool :=
  match buffer with
  | String a (String b EmptyString) => is_alpha a && (is_code 58 b || is_code 124 b)
  | _ => false
  end.

Definition is_normalized_windows_drive_letter (buffer : string) : bool :=
  match buffer with
  | String a (String b EmptyString) => is_alpha a && is_code 58 b
  | _ => false
  end.

Definition normalize_drive_letter (buffer : string) : string :=
  match buffer with
  | String a (String _ r) => String a (String ":" r)
  | _ => buffer
  end.

(** "Shorten a URL's path". *)
Definition shorten (file : bool) (p : list string) : list string :=
  match p with
  | [s] => if file && is_normalized_windows_drive_letter s then p else []
  | _ => removelast p
  end.

(** What the path state does when it meets the end of a segment: [at_slash]
    says whether the segment ended at a separator or at the end of input. *)
Definition end_of_segment
    (file at_slash : bool) (p : list string) (buffer : string) : list string :=
  if is_double_dot buffer then
    let p' := shorten file p in
    if at_slash then p' else p' ++ [EmptyString]
  else if is_single_dot buffer then
    if at_slash then p else p ++ [EmptyString]
  else
    p ++ [if file && bool_decide (p = []) && is_windows_drive_letter buffer
          then normalize_drive_letter buffer else buffer].

(** The path state, run with a state override: "?" and "#" are ordinary
    characters here and get percent-encoded. *)
Fixpoint path_state
    (special file : bool) (input : string) (p : list string) (buffer : string)
    : list string :=
  match input with
  | EmptyString => end_of_segment file false p buffer
  | String c rest =>
      if is_slash c || (special && is_backslash c)
      then path_state special file rest (end_of_segment file true p buffer) EmptyString
      else path_state special file rest p (buffer +:+ utf8_percent_encode path_set c)
  end.

(** The path start state, run with a state override on an emptied path. *)
Definition path_start_state (u : t) (input : string) : list string :=
  let special := is_special u in
  let file := bool_decide (scheme u = "file") in
  match input with
  | EmptyString =>
      if special then path_state special file input [] EmptyString
      else match host u with None => [EmptyString] | Some _ => [] end
  | String c rest =>
      if is_slash c || (special && is_backslash c)
      then path_state special file rest [] EmptyString
      else path_state special file input [] EmptyString
  end.

(** *** Serializers *)

Definition serialize_path (p : Path) : string :=
  match p with
  | Opaque s => s
  | Segments l => foldr (fun seg out => "/" +:+ seg +:+ out) EmptyString l
  end.

Definition includes_credentials (u : t) : bool :=
  negb (Str.is_empty (username u)) || negb (Str.is_empty (password u)).

(** Scheme and authority: the URL serializer's output up to the path. *)
Definition site (u : t) : string :=
  scheme u +:+ ":" +:+
  match host u with
  | Some h =>
      "//" +:+
      (if includes_credentials u
       then username u +:+
            (if Str.is_empty (password u) then EmptyString else ":" +:+ password u)
            +:+ "@"
       else EmptyString) +:+
      h +:+
      match port u with Some n => ":" +:+ Str.of_N n | None => EmptyString end
  | None => EmptyString
  end.

(** With no host, a path that starts with an empty segment is guarded by
    "/." so that it does not read as an authority. *)
Definition path_guard (u : t) : string :=
  match host u, path u with
  | None, Segments (EmptyString :: _ :: _) => "/."
  | _, _ => EmptyString
  end.

(** The URL serializer (fragment included). *)
Definition serialize (u : t) : string :=
  site u +:+ path_guard u +:+ serialize_path (path u) +:+
  match query u with Some q => "?" +:+ q | None => EmptyString end +:+
  match fragment u with Some f => "#" +:+ f | None => EmptyString end.

(** The application/x-www-form-urlencoded serializer. *)
Definition urlencoded_serialize (tuples : list (string * string)) : string :=
  fold_left
    (fun output '(name, value) =>
       (if Str.is_empty output then output else output +:+ "&") +:+
       percent_encode_after_encoding urlencoded_set true name +:+ "=" +:+
       percent_encode_after_encoding urlencoded_set true value)
    tuples EmptyString.

(** *** The scheme states of the parser

    The input is trimmed first; with no base URL an input is rejected unless
    it starts with a scheme: an ASCII letter, then letters, digits, "+", "-"
    or ".", then ":". *)

Definition clean (input : string) : string :=
  Str.filter (fun c => negb (is_tab_or_newline c))
    (Str.drop_while_end is_c0_control_or_space
       (Str.drop_while is_c0_control_or_space input)).

Definition is_scheme_char (c : ascii) : bool :=
  is_alphanumeric c || is_code 43 c || is_code 45 c || is_code 46 c.

(** The scheme state: [Some (scheme, remaining)] once ":" is met. *)
Fixpoint scheme_state (buffer input : string) : option (string * string) :=
  match input with
  | EmptyString => None
  | String c rest =>
      if is_scheme_char c then scheme_state (buffer +:+ String (to_lower c) EmptyString) rest
      else if is_code 58 c then Some (buffer, rest)
      else None
  end.

Definition scheme_start_state (input : string) : option (string * string) :=
  match input with
  | EmptyString => None
  | String c rest =>
      if is_alpha c then scheme_state (String (to_lower c) EmptyString) rest else None
  end.

End URL.

(** ** JavaScript completions *)

(** What the code can throw (or reject a promise with): an error reported by
    the sqlite3 driver, a [TypeError] of the platform, or a plain string, which
    is what [handleCodeScan] throws on an unknown destination. *)
Inductive JsError : Type :=
  | SqliteError (errcode : string)
  | TypeError (message : string)
  | ThrownString (s : string).

Inductive Completion (A : Type) : Type :=
  | Returns (a : A)
  | Throws (e : JsError).
Arguments Returns {A} a.
Arguments Throws {A} e.

Definition bind_completion {A B} (c : Completion A) (k : A -> Completion B) : Completion B :=
  match c with
  | Returns a => k a
  | Throws e => Throws e
  end.

(** Truthiness of an [any]-typed argument that holds a string or nothing:
    [undefined] and the empty string are falsy. *)
Definition truthy (v : option string) : bool :=
  match v with
  | Some (String _ _) => true
  | _ => false
  end.

(** ** The platform

    What the environment supplies: the app's host configuration
    ([shopify.api.config]), and the two parts of the URL Standard that are
    kept abstract: the parser states after the scheme (authority, host, port,
    path, query and fragment of the constructor's input), and the
    application/x-www-form-urlencoded parser that fills [searchParams] from an
    existing query. *)
Class Platform : Type := {
  hostScheme : string;
  hostName : string;
  url_after_scheme : string -> string -> option URL.t;
  urlencoded_parse : string -> list (string * string)
}.

(** A [URL] object: the URL record and the list of its [searchParams]. *)
Record URLObject : Type := {
  url : URL.t;
  searchParams : list (string * string)
}.

Definition invalid_url : JsError := TypeError "Invalid URL".

(** [new URL(input)], with no base. The [searchParams] of the new object
    are parsed from its query; with no query there is nothing to parse and
    the list is empty. *)
Definition new_URL `{Platform} (input : string) : Completion URLObject :=
  match URL.scheme_start_state (URL.clean input) with
  | None => Throws invalid_url
  | Some (scheme, remaining) =>
      match url_after_scheme scheme remaining with
      | None => Throws invalid_url
      | Some u =>
          Returns {| url := u;
                     searchParams := match URL.query u with
                                     | None => []
                                     | Some q => urlencoded_parse q
                                     end |}
      end
  end.

(** [url.pathname = value] *)
Definition set_pathname (value : string) (o : URLObject) : URLObject :=
  if URL.has_opaque_path (url o) then o
  else
    let input := Str.filter (fun c => negb (Chars.is_tab_or_newline c)) value in
    {| url := URL.set_path (URL.Segments (URL.path_start_state (url o) input)) (url o);
       searchParams := searchParams o |}.

(** [url.searchParams.append(name, value)]: the pair joins the list and the
    URL's query becomes the serialization of the list. *)
Definition searchParams_append (name value : string) (o : URLObject) : URLObject :=
  let tuples := searchParams o ++ [(name, value)] in
  let serializedQuery := URL.urlencoded_serialize tuples in
  {| url := URL.set_query
              (if Str.is_empty serializedQuery then None else Some serializedQuery)
              (url o);
     searchParams := tuples |}.

(** [url.toString()] *)
Definition toString (o : URLObject) : string := URL.serialize (url o).

(** ** The variant-id regular expression

    [variantId.replace(/gid:\/\/shopify\/ProductVariant\/([0-9]+)/, "$1")]:
    the leftmost match, if any, is replaced by its digits. *)

Definition variant_gid_prefix : string := "gid://shopify/ProductVariant/".

(** A match of the expression at the start of [s]: the captured digits (as
    many as there are) and what follows the match. *)
Definition match_variant_gid (s : string) : option (string * string) :=
  match Str.strip_prefix variant_gid_prefix s with
  | Some r =>
      let '(digits, rest) := Str.span Chars.is_digit r in
      if Str.is_empty digits then None else Some (digits, rest)
  | None => None
  end.

Fixpoint replace_variant_gid (s : string) : string :=
  match match_variant_gid s with
  | Some (digits, rest) => digits +:+ rest
  | None =>
      match s with
      | EmptyString => EmptyString
      | String c r => String c (replace_variant_gid r)
      end
  end.

(** ** The URL helpers *)

(** Generate the URL to a product page. The parameter is typed [any]; the
    discount code may be missing. *)
Definition productViewURL `{Platform}
    (host productHandle : string) (discountCode : option string) : Completion string :=
  bind_completion (new_URL host) (fun url =>
    let productPath := "/products/" +:+ productHandle in
    if truthy discountCode then
      let url := set_pathname ("/discount/" +:+ default EmptyString discountCode) url in
      let url := searchParams_append "redirect" productPath url in
      Returns (toString url)
    else
      let url := set_pathname productPath url in
      Returns (toString url)).

(** Generate the URL to checkout with the product in the cart. [quantity]
    defaults to 1 when it is not passed. *)
Definition productCheckoutURL `{Platform}
    (host variantId : string) (quantity : option Z) (discountCode : option string)
    : Completion string :=
  let quantity := default 1 quantity in
  bind_completion (new_URL host) (fun url =>
    let id := replace_variant_gid variantId in
    let url := set_pathname ("/cart/" +:+ id +:+ ":" +:+ Str.of_Z quantity) url in
    let url := if truthy discountCode
               then searchParams_append "discount" (default EmptyString discountCode) url
               else url in
    Returns (toString url)).

(** ** The sqlite3 database

    One table, [qr_codes], keyed by its INTEGER PRIMARY KEY AUTOINCREMENT
    column [id]; the other columns make a [Row]. *)

Record Row : Type := mkRow {
  row_shopDomain : string;
  row_title : string;
  row_productId : string;
  row_variantId : string;
  row_handle : string;
  row_discountId : string;
  row_discountCode : string;
  row_destination : string;
  row_scans : Z;
  row_createdAt : string
}.

(** The objects the datastore passes around: a row with its [id], plus the
    [imageUrl] that [__addImageUrl] sets. ([handle] is a string at run time,
    whatever its declared type.) *)
Record QRCode : Type := mkQRCode {
  id : Z;
  shopDomain : string;
  title : string;
  productId : string;
  variantId : string;
  handle : string;
  discountId : string;
  discountCode : string;
  destination : string;
  scans : Z;
  createdAt : string;
  imageUrl : option string
}.

(** [Number.MAX_SAFE_INTEGER]: up to it, a JavaScript number holds every
    integer exactly, and a template literal prints it in decimal digits. *)
Definition max_safe_integer : Z := 9007199254740991.

Definition safe_integer (n : Z) : Prop := - max_safe_integer <= n <= max_safe_integer.

(** The driver hands the value of an INTEGER column to JavaScript as a
    number, that is as the double nearest to it (ties to the even mantissa):
    an integer up to 2^53 in magnitude is kept, a larger one keeps its 53
    leading bits, rounded. *)
Definition js_number (n : Z) : Z :=
  let m := Z.abs n in
  if m <=? 2 ^ 53 then n
  else
    let e := Z.log2 m - 52 in
    let q := Z.shiftr m e in
    let r := Z.land m (Z.ones e) in
    let half := Z.shiftl 1 (e - 1) in
    let q := if r <? half then q
             else if half <? r then q + 1
             else if Z.even q then q else q + 1 in
    Z.sgn n * Z.shiftl q e.

(** The object the driver makes of a row: [id] and [scans] are numbers. *)
Definition qrcode_of_row (i : Z) (r : Row) : QRCode :=
  mkQRCode (js_number i) (row_shopDomain r) (row_title r) (row_productId r)
    (row_variantId r) (row_handle r) (row_discountId r) (row_discountCode r)
    (row_destination r) (js_number (row_scans r)) (row_createdAt r) None.

(** The database file and its surroundings: the table, the AUTOINCREMENT
    high-water mark kept in [sqlite_sequence], the local time that stamps new
    rows, and what the driver will report for the coming queries, one entry
    per query ([Some code] is an error raised before the statement runs; an
    exhausted list means no more errors). *)
Record Database : Type := mkDatabase {
  qr_codes : gmap Z Row;
  sqlite_sequence : Z;
  localtime : string;
  driver_errors : list (option string)
}.

Definition int64_max : Z := 9223372036854775807.

(** [scans + 1] in SQLite: 64-bit integer addition; on overflow the result
    turns into a floating-point value (2^63), which later increments no
    longer change. *)
Definition sqlite_add_one (n : Z) : Z :=
  if n <=? int64_max then n + 1 else n.

Definition bump_scans (r : Row) : Row :=
  mkRow (row_shopDomain r) (row_title r) (row_productId r) (row_variantId r)
    (row_handle r) (row_discountId r) (row_discountCode r) (row_destination r)
    (sqlite_add_one (row_scans r)) (row_createdAt r).

(** The largest rowid in the table, 0 for an empty one. *)
Definition largest_rowid (t : gmap Z Row) : Z :=
  foldr Z.max 0 (fst <$> map_to_list t).

(** The statements the datastore sends, each indexed by the type of the rows
    it yields. *)
Inductive Sql : Type -> Type :=
  | InsertQRCode
      (shopDomain title productId variantId handle discountId discountCode destination : string)
      : Sql Z                                   (* ... RETURNING id *)
  | UpdateQRCode
      (title productId variantId handle discountId discountCode destination : string) (id : Z)
      : Sql unit
  | SelectByShopDomain (shopDomain : string) : Sql QRCode
  | SelectById (id : Z) : Sql QRCode
  | DeleteById (id : Z) : Sql unit
  | IncrementScans (id : Z) : Sql unit.

Definition with_table (t : gmap Z Row) (db : Database) : Database :=
  mkDatabase t (sqlite_sequence db) (localtime db) (driver_errors db).

(** Runs one statement: an error code, or the rows, as the driver hands
    them to JavaScript, and the new database. *)
Definition execute {T} (sql : Sql T) (db : Database) : string + (list T * Database) :=
  match sql in Sql T return string + (list T * Database) with
  | InsertQRCode shopDomain title productId variantId handle discountId discountCode destination =>
      let high := Z.max (largest_rowid (qr_codes db)) (sqlite_sequence db) in
      if int64_max <=? high then inl "SQLITE_FULL"
      else
        let rowid := high + 1 in
        let row := mkRow shopDomain title productId variantId handle discountId
                     discountCode destination 0 (localtime db) in
        inr ([js_number rowid],
             mkDatabase (<[rowid := row]> (qr_codes db)) rowid (localtime db)
               (driver_errors db))
  | UpdateQRCode title productId variantId handle discountId discountCode destination id =>
      let set r := mkRow (row_shopDomain r) title productId variantId handle discountId
                     discountCode destination (row_scans r) (row_createdAt r) in
      inr ([], with_table (alter set id (qr_codes db)) db)
  | SelectByShopDomain shopDomain =>
      inr ((fun '(i, r) => qrcode_of_row i r) <$>
             base.filter (fun '(_, r) => row_shopDomain r = shopDomain)
               (map_to_list (qr_codes db)),
           db)
  | SelectById id =>
      inr (match qr_codes db !! id with
           | Some r => [qrcode_of_row id r]
           | None => []
           end,
           db)
  | DeleteById id => inr ([], with_table (delete id (qr_codes db)) db)
  | IncrementScans id => inr ([], with_table (alter bump_scans id (qr_codes db)) db)
  end.

(** ** Asynchronous code over the database *)

Definition Async (A : Type) : Type := Database -> Completion A * Database.

Definition resolve {A} (a : A) : Async A := fun db => (Returns a, db).
Definition reject {A} (e : JsError) : Async A := fun db => (Throws e, db).
Definition lift {A} (c : Completion A) : Async A := fun db => (c, db).

(** [await]: a rejection ends the caller, with the database as it then is. *)
Definition await {A B} (m : Async A) (k : A -> Async B) : Async B :=
  fun db =>
    match m db with
    | (Returns a, db') => k a db'
    | (Throws e, db') => (Throws e, db')
    end.

Declare Scope async_scope.
Delimit Scope async_scope with async.
Notation "x <- m ;; k" := (await m (fun x => k))
  (at level 100, m at next level, right associativity) : async_scope.
#[local] Open Scope async_scope.

Definition outcome {A} (r : Completion A * Database) : Completion A := fst r.
Definition after {A} (r : Completion A * Database) : Database := snd r.

(** The next query will not be refused by the driver. *)
Definition driver_ready (db : Database) : Prop :=
  head (driver_errors db) = None \/ head (driver_errors db) = Some None.

(** ** The datastore *)

Module QRCodesDatastore.
Section Methods.
Context `{Platform}.

(** Perform a query on the database. Used by the various CRUD methods. The
    promise rejects with the driver's error, or with the error of the
    statement itself. *)
Definition __query {T} (sql : Sql T) : Async (list T) :=
  fun db =>
    let db0 := mkDatabase (qr_codes db) (sqlite_sequence db) (localtime db)
                 (tail (driver_errors db)) in
    match head (driver_errors db) with
    | Some (Some err) => (Throws (SqliteError err), db0)
    | _ =>
        match execute sql db0 with
        | inl err => (Throws (SqliteError err), db0)
        | inr (rows, db1) => (Returns rows, db1)
        end
    end.

Definition __generateQrcodeImageUrl (qrcode : QRCode) : string :=
  hostScheme +:+ "://" +:+ hostName +:+ "/qrcodes/" +:+ Str.of_Z (id qrcode) +:+ "/image".

Definition __addImageUrl (qrcode : QRCode) : QRCode :=
  mkQRCode (id qrcode) (shopDomain qrcode) (title qrcode) (productId qrcode)
    (variantId qrcode) (handle qrcode) (discountId qrcode) (discountCode qrcode)
    (destination qrcode) (scans qrcode) (createdAt qrcode)
    (Some (__generateQrcodeImageUrl qrcode)).

Definition __increaseScanCount (qrcode : QRCode) : Async unit :=
  _ <- __query (IncrementScans (id qrcode)) ;;
  resolve tt.

Definition DEFAULT_PURCHASE_QUANTITY : Z := 1.

Definition __goToProductView (url : URLObject) (qrcode : QRCode) : Completion string :=
  productViewURL (toString url) (handle qrcode) (Some (discountCode qrcode)).

Definition __goToProductCheckout (url : URLObject) (qrcode : QRCode) : Completion string :=
  productCheckoutURL (toString url) (variantId qrcode)
    (Some DEFAULT_PURCHASE_QUANTITY) (Some (discountCode qrcode)).

(** [rawResults[0].id]: reading a property of [undefined] is a [TypeError]. *)
Definition create (qrcode : QRCode) : Async Z :=
  rawResults <-
    __query (InsertQRCode (shopDomain qrcode) (title qrcode) (productId qrcode)
               (variantId qrcode) (handle qrcode) (discountId qrcode)
               (discountCode qrcode) (destination qrcode)) ;;
  match rawResults with
  | first :: _ => resolve first
  | [] => reject (TypeError "Cannot read properties of undefined (reading 'id')")
  end.

Definition update (id : Z) (qrcode : QRCode) : Async bool :=
  _ <- __query (UpdateQRCode (title qrcode) (productId qrcode) (variantId qrcode)
                  (handle qrcode) (discountId qrcode) (discountCode qrcode)
                  (destination qrcode) id) ;;
  resolve true.

(** [undefined] unless the query yields exactly one row. *)
Definition read (id : Z) : Async (option QRCode) :=
  rows <- __query (SelectById id) ;;
  match rows with
  | [row] => resolve (Some (__addImageUrl row))
  | _ => resolve None
  end.

(** The destination URL for a QR code is generated at query time. *)
Definition generateQrcodeDestinationUrl (qrcode : QRCode) : string :=
  hostScheme +:+ "://" +:+ hostName +:+ "/qrcodes/" +:+ Str.of_Z (id qrcode) +:+ "/scan".

Definition unrecognized_destination (destination : string) : JsError :=
  ThrownString
    ("Unrecognized destination " +:+ String Chars.dquote destination
       +:+ String Chars.dquote EmptyString).

(** The behavior when a QR code is scanned. *)
Definition handleCodeScan (qrcode : QRCode) : Async string :=
  (* Log the scan in the database *)
  _ <- __increaseScanCount qrcode ;;
  url <- lift (new_URL (shopDomain qrcode)) ;;
  if decide (destination qrcode = "product") then
    (* The QR code redirects to the product view *)
    lift (__goToProductView url qrcode)
  else if decide (destination qrcode = "checkout") then
    (* The QR code redirects to checkout *)
    lift (__goToProductCheckout url qrcode)
  else
    reject (unrecognized_destination (destination qrcode)).

Definition delete (id : Z) : Async bool :=
  _ <- __query (DeleteById id) ;;
  resolve true.

Definition list (shopDomain : string) : Async (Datatypes.list QRCode) :=
  results <- __query (SelectByShopDomain shopDomain) ;;
  resolve (__addImageUrl <$> results).

End Methods.
End QRCodesDatastore.

(** ** Operations on the store

    Every way the module touches the database, for statements that range
    over "all operations". *)
Inductive Operation : Type :=
  | OpCreate (qrcode : QRCode)
  | OpUpdate (id : Z) (qrcode : QRCode)
  | OpList (shopDomain : string)
  | OpRead (id : Z)
  | OpDelete (id : Z)
  | OpScan (qrcode : QRCode).

(** The database an operation leaves behind, whether it succeeds or fails. *)
Definition perform `{Platform} (op : Operation) (db : Database) : Database :=
  match op with
  | OpCreate q => after (QRCodesDatastore.create q db)
  | OpUpdate i q => after (QRCodesDatastore.update i q db)
  | OpList s => after (QRCodesDatastore.list s db)
  | OpRead i => after (QRCodesDatastore.read i db)
  | OpDelete i => after (QRCodesDatastore.delete i db)
  | OpScan q => after (QRCodesDatastore.handleCodeScan q db)
  end.

Definition perform_all `{Platform} (ops : list Operation) (db : Database) : Database :=
  fold_left (fun d op => perform op d) ops db.

(** ** A reference platform

    An instance to run the model on everyday inputs. Its URL parser is exact
    on inputs of the form [http(s)://host] and [http(s)://host/path], where
    the host is made of lower-case letters and dots and the path holds no "?"
    or "#"; it rejects everything else, though the full parser accepts more.
    The statements below never depend on it: they hold for every platform. *)

Module Reference.
Import Chars.

Definition is_plain_host_char (c : ascii) : bool := is_lower_alpha c || is_code 46 c.

Definition starts_with_letter (s : string) : bool :=
  match s with
  | String c _ => is_lower_alpha c
  | EmptyString => false
  end.

Definition plain_path (p : string) : bool :=
  match p with
  | EmptyString => true
  | String c _ =>
      is_slash c && negb (Str.existsb (fun c => is_code 63 c || is_code 35 c) p)
  end.

Definition after_scheme (scheme remaining : string) : option URL.t :=
  if bool_decide (scheme ∈ ["http"; "https"]) then
    match Str.strip_prefix "//" remaining with
    | Some r =>
        let '(h, p) := Str.span is_plain_host_char r in
        if starts_with_letter h && plain_path p then
          let u := URL.mk scheme EmptyString EmptyString (Some h) None
                     (URL.Segments []) None None in
          Some (URL.set_path (URL.Segments (URL.path_start_state u p)) u)
        else None
    | None => None
    end
  else None.

Fixpoint split_on (sep : ascii -> bool) (s : string) : list string :=
  match s with
  | EmptyString => [EmptyString]
  | String c r =>
      if sep c then EmptyString :: split_on sep r
      else match split_on sep r with
           | h :: t => String c h :: t
           | [] => [String c EmptyString]
           end
  end.

Definition hex_value (c : ascii) : option N :=
  if is_digit c then Some (code c - 48)%N
  else if in_range 65 70 c then Some (code c - 55)%N
  else if in_range 97 102 c then Some (code c - 87)%N
  else None.

Fixpoint percent_decode (s : string) : string :=
  match s with
  | EmptyString => EmptyString
  | String c r =>
      match r with
      | String a (String b r2) =>
          match hex_value a, hex_value b with
          | Some x, Some y =>
              if is_code 37 c then String (ascii_of_N (16 * x + y)) (percent_decode r2)
              else String c (percent_decode r)
          | _, _ => String c (percent_decode r)
          end
      | _ => String c (percent_decode r)
      end
  end.

Definition plus_to_space (s : string) : string :=
  Str.map (fun c => if is_code 43 c then " "%char else c) s.

(** The application/x-www-form-urlencoded parser, on byte strings: the final
    UTF-8 decoding is the identity here, which is exact when the decoded
    bytes are well-formed UTF-8. *)
Definition form_parse (input : string) : list (string * string) :=
  omap
    (fun bytes =>
       if Str.is_empty bytes then None
       else
         let '(name, rest) := Str.span (fun c => negb (is_code 61 c)) bytes in
         let value := match rest with String _ v => v | EmptyString => EmptyString end in
         Some (percent_decode (plus_to_space name), percent_decode (plus_to_space value)))
    (split_on (is_code 38) input).

Definition platform : Platform :=
  {| hostScheme := "https";
     hostName := "qr.example.com";
     url_after_scheme := after_scheme;
     urlencoded_parse := form_parse |}.

(** An empty database on a driver that reports no error. *)
Definition empty_database : Database := mkDatabase ∅ 0 "2023-03-01 12:00:00" [].

(** A shop, and the URL object that [new URL] makes of it. *)
Definition shop : string := "https://shop.myshopify.com".

Definition shop_url : URLObject :=
  {| url := URL.mk "https" EmptyString EmptyString (Some "shop.myshopify.com") None
              (URL.Segments [EmptyString]) None None;
     searchParams := [] |}.

(** A row of that shop, never scanned, and the object read from it under
    the id 1. *)
Definition row (variant handle_ code dest : string) : Row :=
  mkRow shop "Summer sale" "gid://shopify/Product/7" variant handle_
    "gid://shopify/DiscountCodeNode/3" code dest 0 "2023-03-01 12:00:00".

Definition sample (variant handle_ code dest : string) : QRCode :=
  qrcode_of_row 1 (row variant handle_ code dest).

(** A database that holds one row, under the id 1. *)
Definition database_of (r : Row) : Database :=
  mkDatabase {[ 1 := r ]} 1 "2023-03-01 12:00:00" [].

(** A database grown old: one row under the id 2^53, where the
    AUTOINCREMENT sequence stands. *)
Definition aged_database_of (r : Row) : Database :=
  mkDatabase {[ 9007199254740992 := r ]} 9007199254740992 "2023-03-01 12:00:00" [].

(** The same database while the file is locked: the driver refuses the next
    query. *)
Definition busy (db : Database) : Database :=
  mkDatabase (qr_codes db) (sqlite_sequence db) (localtime db) [Some "SQLITE_BUSY"].

Definition gid_12345 : string := "gid://shopify/ProductVariant/12345".

(** A row whose shop domain was stored without its scheme. *)
Definition schemeless_row (dest : string) : Row :=
  mkRow "shop.myshopify.com" "Summer sale" "gid://shopify/Product/7" gid_12345
    "red-shirt" "gid://shopify/DiscountCodeNode/3" EmptyString dest 0
    "2023-03-01 12:00:00".

End Reference.

(** ** Vocabulary of the statements *)

(** A character that the path state copies as it is: not a separator and not
    in the path percent-encode set (hence no tab or newline either). *)
Definition path_inert (c : ascii) : bool :=
  negb (URL.path_set c || Chars.is_slash c || Chars.is_backslash c).

(** A path segment that reaches the URL as it is written: inert characters
    only, and not one of the dot segments. *)
Definition path_literal (s : string) : bool :=
  Str.forallb path_inert s && negb (URL.is_single_dot s) && negb (URL.is_double_dot s).

(** A character that stays within its path segment: no separator, and no
    tab or newline (which the parser drops). *)
Definition segment_char (c : ascii) : bool :=
  negb (Chars.is_slash c || Chars.is_backslash c || Chars.is_tab_or_newline c).

(** The percent-encoding of a string as (part of) a path segment. *)
Definition path_encode (s : string) : string :=
  Str.concat_map (URL.utf8_percent_encode URL.path_set) s.

(** A string that makes one path segment: segment characters only, and not
    a dot segment once encoded. *)
Definition single_segment (s : string) : bool :=
  Str.forallb segment_char s
  && negb (URL.is_single_dot (path_encode s))
  && negb (URL.is_double_dot (path_encode s)).

(** The form-urlencoded rendering of a query parameter. *)
Definition urlencode (s : string) : string :=
  URL.percent_encode_after_encoding URL.urlencoded_set true s.

(** A string that [urlencode] leaves as it is: ASCII letters and digits,
    "*", "-", "." and "_". *)
Definition form_literal (s : string) : bool :=
  Str.forallb (fun c => negb (URL.urlencoded_set c)) s.

(** The shop domain is the URL of a site: it parses, its serialization parses
    back to the same URL (as the URL Standard provides), and it carries
    neither an opaque path nor a query nor a fragment. *)
Definition plain_shop_url `{Platform} (shopDomain : string) (o : URLObject) : Prop :=
  new_URL shopDomain = Returns o /\
  new_URL (toString o) = Returns o /\
  URL.has_opaque_path (url o) = false /\
  URL.query (url o) = None /\
  URL.fragment (url o) = None.

(** The variant id holds no match of the regular expression: nowhere does
    the prefix occur with a digit after it. *)
Definition no_variant_gid (v : string) : Prop :=
  forall pre d post,
    v = pre +:+ variant_gid_prefix +:+ String d post -> Chars.is_digit d = false.

(** The query that the checkout helper adds for a discount code. *)
Definition discount_query (code : string) : string :=
  if Str.is_empty code then EmptyString else "?discount=" +:+ urlencode code.

Definition is_scheme_name (name : string) : bool :=
  match name with
  | String c r => Chars.is_alpha c && Str.forallb URL.is_scheme_char r
  | EmptyString => false
  end.

(** The input, once trimmed, starts with a scheme name and a colon. *)
Definition has_scheme (input : string) : Prop :=
  exists name remaining,
    URL.clean input = name +:+ String ":" remaining /\ is_scheme_name name = true.

Definition lacks_scheme (input : string) : Prop := ~ has_scheme input.

(** No row has an id above the AUTOINCREMENT high-water mark, as in every
    database that only this module has written to. *)
Definition well_sequenced (db : Database) : Prop :=
  forall k r, qr_codes db !! k = Some r -> k <= sqlite_sequence db.

(** The fields that [update] writes. *)
Definition updated_row (q : QRCode) (r : Row) : Row :=
  mkRow (row_shopDomain r) (title q) (productId q) (variantId q) (handle q)
    (discountId q) (discountCode q) (destination q) (row_scans r) (row_createdAt r).

(** The characters that dot segments are written with: ".", "%", "2", "e"
    and "E". *)
Definition is_dot_char (c : ascii) : bool :=
  Chars.is_code 46 c || Chars.is_code 37 c || Chars.is_code 50 c
  || Chars.is_code 101 c || Chars.is_code 69 c.

(** The database once the driver has run the scan-count statement for [i]. *)
Definition scanned (i : Z) (db : Database) : Database :=
  mkDatabase (alter bump_scans i (qr_codes db)) (sqlite_sequence db) (localtime db)
    (tail (driver_errors db)).

(** The database once the driver has refused or run a query that writes
    nothing: only the driver's list of coming errors moves on. *)
Definition polled (db : Database) : Database :=
  mkDatabase (qr_codes db) (sqlite_sequence db) (localtime db) (tail (driver_errors db)).

(** How one database follows another in time: the high-water mark does not
    go down, and a row of the later one either continues a row of the earlier
    one with at least its scan count, or is a new row above the earlier
    high-water mark. *)
Definition evolves (db db' : Database) : Prop :=
  sqlite_sequence db <= sqlite_sequence db' /\
  forall k r',
    qr_codes db' !! k = Some r' ->
    (exists r, qr_codes db !! k = Some r /\ row_scans r <= row_scans r') \/
    (sqlite_sequence db < k <= sqlite_sequence db').

(** ** Start-up: the session and the schema

    [init] and [__hasQrCodesTable] work on more than the table: on the static
    [instance] that holds the connection, and on the schema of the database
    file, where the table may not exist yet. *)

Module Schema.

Definition qrCodesTableName : string := "qr_codes".

(** The process and its database file: whether [QRCodesDatastore.instance]
    is set, the names of the tables of the file ([sqlite_schema]), and the
    database of the previous sections, whose table counts only while
    [qr_codes] is among the names. *)
Record Session : Type := mkSession {
  instance : bool;
  tables : gset string;
  content : Database
}.

Definition has_table (s : Session) : bool := bool_decide (qrCodesTableName ∈ tables s).

(** The statements of the module on the file: those of the CRUD methods,
    and the two of [init]. *)
Inductive FileSql : Type -> Type :=
  | OnQrCodes {T} (sql : Sql T) : FileSql T
  | SelectTableName (name : string) : FileSql string
  | CreateTableQrCodes : FileSql unit.

(** Runs one statement on the file. A statement on [qr_codes] needs the
    table; CREATE TABLE refuses a table that exists, and otherwise makes an
    empty one, with the [sqlite_sequence] table that AUTOINCREMENT asks for. *)
Definition execute_file {T} (sql : FileSql T) (s : Session)
    : string + (list T * Session) :=
  match sql in FileSql T return string + (list T * Session) with
  | OnQrCodes sql =>
      if has_table s then
        match execute sql (content s) with
        | inl err => inl err
        | inr (rows, db) => inr (rows, mkSession (instance s) (tables s) db)
        end
      else inl "SQLITE_ERROR"
  | SelectTableName name =>
      inr (if bool_decide (name ∈ tables s) then [name] else [], s)
  | CreateTableQrCodes =>
      if has_table s then inl "SQLITE_ERROR"
      else
        inr ([],
             mkSession (instance s)
               ({[ qrCodesTableName; "sqlite_sequence" ]} ∪ tables s)
               (mkDatabase ∅ 0 (localtime (content s)) (driver_errors (content s))))
  end.

Definition SessionAsync (A : Type) : Type := Session -> Completion A * Session.

Definition await {A B} (m : SessionAsync A) (k : A -> SessionAsync B) : SessionAsync B :=
  fun s =>
    match m s with
    | (Returns a, s') => k a s'
    | (Throws e, s') => (Throws e, s')
    end.

Definition resolve {A} (a : A) : SessionAsync A := fun s => (Returns a, s).

(** [__query] on the file: without an instance, reading
    [QRCodesDatastore.instance.db] is a [TypeError]; otherwise the driver
    reports its error or runs the statement, as before. *)
Definition __query {T} (sql : FileSql T) : SessionAsync (list T) :=
  fun s =>
    if instance s then
      let s0 := mkSession (instance s) (tables s) (polled (content s)) in
      match head (driver_errors (content s)) with
      | Some (Some err) => (Throws (SqliteError err), s0)
      | _ =>
          match execute_file sql s0 with
          | inl err => (Throws (SqliteError err), s0)
          | inr (rows, s1) => (Returns rows, s1)
          end
      end
    else (Throws (TypeError "Cannot read properties of undefined (reading 'db')"), s).

(** Used to check whether to create the database. *)
Definition __hasQrCodesTable : SessionAsync bool :=
  await (__query (SelectTableName qrCodesTableName)) (fun rows =>
  resolve (bool_decide (length rows = 1%nat))).

(** Initializes the connection with the app's sqlite3 database. *)
Definition init : SessionAsync unit :=
  fun s =>
    let s := if instance s then s else mkSession true (tables s) (content s) in
    await __hasQrCodesTable (fun hasQrCodesTable =>
      if negb hasQrCodesTable then
        await (__query CreateTableQrCodes) (fun _ => resolve tt)
      else resolve tt) s.

End Schema.

(** ** More vocabulary *)

(** A row without its scan count. *)
Definition forget_scans (r : Row) : Row :=
  mkRow (row_shopDomain r) (row_title r) (row_productId r) (row_variantId r)
    (row_handle r) (row_discountId r) (row_discountCode r) (row_destination r)
    0 (row_createdAt r).

(** The error an operation ends with, if it does. *)
Definition error_of {A} (c : Completion A) : option JsError :=
  match c with
  | Returns _ => None
  | Throws e => Some e
  end.

Definition failure `{Platform} (op : Operation) (db : Database) : option JsError :=
  match op with
  | OpCreate q => error_of (outcome (QRCodesDatastore.create q db))
  | OpUpdate i q => error_of (outcome (QRCodesDatastore.update i q db))
  | OpList s => error_of (outcome (QRCodesDatastore.list s db))
  | OpRead i => error_of (outcome (QRCodesDatastore.read i db))
  | OpDelete i => error_of (outcome (QRCodesDatastore.delete i db))
  | OpScan q => error_of (outcome (QRCodesDatastore.handleCodeScan q db))
  end.

Definition is_scan (op : Operation) : bool :=
  match op with
  | OpScan _ => true
  | _ => false
  end.

(** A character of a decimal numeral: a digit or the minus sign. *)
Definition is_numeral_char (c : ascii) : bool := Chars.is_digit c || Chars.is_code 45 c.

(** The object that [read] and [list] make of a stored row. *)
Definition stored_qrcode `{Platform} (i : Z) (r : Row) : QRCode :=
  QRCodesDatastore.__addImageUrl (qrcode_of_row i r).

(** A second reference platform, for inputs that have a scheme that is not
    special and no slash after it, such as "localhost:3000": the parser then
    takes everything after the colon as an opaque path. Exact on inputs whose
    remainder holds no "?" and no "#" and does not end in a space. *)
Module ReferenceOpaque.

Definition after_scheme (scheme remaining : string) : option URL.t :=
  if bool_decide (scheme ∈ URL.special_schemes) then None
  else
    match remaining with
    | String "/" _ => None
    | _ =>
        if Str.existsb (fun c => Chars.is_code 63 c || Chars.is_code 35 c) remaining
        then None
        else
          Some (URL.mk scheme EmptyString EmptyString None None
                  (URL.Opaque
                     (Str.concat_map (URL.utf8_percent_encode URL.c0_control_set) remaining))
                  None None)
    end.

Definition platform : Platform :=
  {| hostScheme := "https";
     hostName := "qr.example.com";
     url_after_scheme := after_scheme;
     urlencoded_parse := Reference.form_parse |}.

Definition localhost_3000 : URLObject :=
  {| url := URL.mk "localhost" EmptyString EmptyString None None (URL.Opaque "3000")
              None None;
     searchParams := [] |}.

Definition row (dest : string) : Row :=
  mkRow "localhost:3000" "Summer sale" "gid://shopify/Product/7" Reference.gid_12345
    "red-shirt" "gid://shopify/DiscountCodeNode/3" EmptyString dest 0
    "2023-03-01 12:00:00".

End ReferenceOpaque.

(** Two database files for the set-up: a new one, with no table and no
    instance yet, and one that holds the table with one row. *)
Module ReferenceFile.

Definition new_file : Schema.Session :=
  Schema.mkSession false ∅ Reference.empty_database.

Definition old_file (r : Row) : Schema.Session :=
  Schema.mkSession false {[ Schema.qrCodesTableName; "sqlite_sequence" ]}
    (Reference.database_of r).

(** A new file on a driver that lets two queries through and refuses the
    third. *)
Definition flaky_file : Schema.Session :=
  Schema.mkSession false ∅
    (mkDatabase ∅ 0 "2023-03-01 12:00:00" [None; None; Some "SQLITE_BUSY"]).

(** A new file that is locked. *)
Definition locked_file : Schema.Session :=
  Schema.mkSession false ∅ (Reference.busy Reference.empty_database).

End ReferenceFile.

(** Facts about single characters are settled by running through the 256
    of them. *)
Ltac each_ascii c :=
  destruct c as [[] [] [] [] [] [] [] []]; vm_compute; try reflexivity; try discriminate.

(** * Properties *)

(** ** Strings and characters *)

Lemma str_app_cons c s t : String c s +:+ t = String c (s +:+ t).
Proof. reflexivity. Qed.

Lemma str_app_nil_l t : EmptyString +:+ t = t.
Proof. reflexivity. Qed.

Lemma str_app_nil_r s : s +:+ EmptyString = s.
Proof. induction s as [|c s IH]; [reflexivity|]. rewrite str_app_cons, IH. reflexivity. Qed.

Lemma str_app_assoc s t u : (s +:+ t) +:+ u = s +:+ (t +:+ u).
Proof.
  induction s as [|c s IH]; [reflexivity|].
  rewrite !str_app_cons, IH. reflexivity.
Qed.

Lemma forallb_app p s t :
  Str.forallb p (s +:+ t) = Str.forallb p s && Str.forallb p t.
Proof.
  induction s as [|c s IH]; [reflexivity|].
  rewrite str_app_cons. simpl. rewrite IH. apply andb_assoc.
Qed.

Lemma existsb_app p s t :
  Str.existsb p (s +:+ t) = Str.existsb p s || Str.existsb p t.
Proof.
  induction s as [|c s IH]; [reflexivity|].
  rewrite str_app_cons. simpl. rewrite IH. apply orb_assoc.
Qed.

Lemma forallb_impl (p q : ascii -> bool) s :
  (forall c, p c = true -> q c = true) ->
  Str.forallb p s = true -> Str.forallb q s = true.
Proof.
  intros Hpq. induction s as [|c s IH]; [reflexivity|]. simpl.
  intros [Hc Hs]%andb_true_iff. rewrite (Hpq c Hc). simpl. auto.
Qed.

Lemma filter_all p s : Str.forallb p s = true -> Str.filter p s = s.
Proof.
  induction s as [|c s IH]; [reflexivity|]. simpl.
  intros [Hc Hs]%andb_true_iff. rewrite Hc, IH by assumption. reflexivity.
Qed.

Lemma existsb_filter p q s :
  Str.existsb p (Str.filter q s) = true -> Str.existsb p s = true.
Proof.
  induction s as [|c s IH]; [done|]. simpl. destruct (q c); simpl.
  - intros [->|H]%orb_true_iff; [done|]. rewrite IH by done. apply orb_true_r.
  - intros H. rewrite IH by done. apply orb_true_r.
Qed.

Lemma existsb_drop_while p q s :
  Str.existsb p (Str.drop_while q s) = true -> Str.existsb p s = true.
Proof.
  induction s as [|c s IH]; [done|]. simpl. destruct (q c); [|done].
  intros H. rewrite IH by done. apply orb_true_r.
Qed.

Lemma existsb_drop_while_end p q s :
  Str.existsb p (Str.drop_while_end q s) = true -> Str.existsb p s = true.
Proof.
  induction s as [|c s IH]; [done|]. simpl.
  destruct (Str.drop_while_end q s) as [|c' s'] eqn:E.
  - destruct (q c); simpl; [done|]. rewrite orb_false_r. intros ->. done.
  - simpl. intros [->|H]%orb_true_iff; [done|].
    rewrite IH; [apply orb_true_r|]. exact H.
Qed.

Lemma strip_prefix_app p r : Str.strip_prefix p (p +:+ r) = Some r.
Proof.
  induction p as [|c p IH]; [reflexivity|].
  rewrite str_app_cons. simpl. rewrite decide_True by reflexivity. exact IH.
Qed.

Lemma strip_prefix_Some p s r : Str.strip_prefix p s = Some r -> s = p +:+ r.
Proof.
  revert s. induction p as [|c p IH]; intros s; simpl.
  - intros [= ->]. reflexivity.
  - destruct s as [|b s]; [done|]. case_decide; [|done]. subst b.
    intros H%IH. rewrite str_app_cons. congruence.
Qed.

Lemma span_spec p s a b :
  Str.span p s = (a, b) -> s = a +:+ b /\ Str.forallb p a = true.
Proof.
  revert a b. induction s as [|c s IH]; intros a b; simpl.
  - intros [= <- <-]. done.
  - destruct (p c) eqn:Hc.
    + destruct (Str.span p s) as [a' b'] eqn:E. intros [= <- <-].
      destruct (IH a' b' eq_refl) as [-> Ha]. rewrite str_app_cons. simpl.
      rewrite Hc, Ha. done.
    + intros [= <- <-]. done.
Qed.

Lemma span_all p s : Str.forallb p s = true -> Str.span p s = (s, EmptyString).
Proof.
  induction s as [|c s IH]; [reflexivity|]. simpl.
  intros [Hc Hs]%andb_true_iff. rewrite Hc, IH by assumption. reflexivity.
Qed.

Lemma path_inert_encode c :
  path_inert c = true -> URL.utf8_percent_encode URL.path_set c = String c EmptyString.
Proof. each_ascii c. Qed.

Lemma path_inert_not_separator c special :
  path_inert c = true -> Chars.is_slash c || (special && Chars.is_backslash c) = false.
Proof. destruct special; each_ascii c. Qed.

Lemma path_inert_not_tab_or_newline c :
  path_inert c = true -> negb (Chars.is_tab_or_newline c) = true.
Proof. each_ascii c. Qed.

Lemma digit_path_inert c : Chars.is_digit c = true -> path_inert c = true.
Proof. each_ascii c. Qed.

Lemma form_literal_encode c :
  negb (URL.urlencoded_set c) = true ->
  (if true && Chars.is_code 32 c then "+" else URL.utf8_percent_encode URL.urlencoded_set c)
  = String c EmptyString.
Proof. each_ascii c. Qed.

(** ** The path state on single segments *)

Lemma segment_char_not_separator c special :
  segment_char c = true -> Chars.is_slash c || (special && Chars.is_backslash c) = false.
Proof. destruct special; each_ascii c. Qed.

Lemma segment_char_not_tab_or_newline c :
  segment_char c = true -> negb (Chars.is_tab_or_newline c) = true.
Proof. each_ascii c. Qed.

Lemma path_inert_segment_char c : path_inert c = true -> segment_char c = true.
Proof. each_ascii c. Qed.

Lemma path_encode_cons c s :
  path_encode (String c s) = URL.utf8_percent_encode URL.path_set c +:+ path_encode s.
Proof. reflexivity. Qed.

Lemma path_encode_app s t : path_encode (s +:+ t) = path_encode s +:+ path_encode t.
Proof.
  induction s as [|c s IH]; [reflexivity|].
  rewrite str_app_cons, !path_encode_cons, IH, str_app_assoc. reflexivity.
Qed.

(** Inert characters are their own encoding. *)
Lemma path_encode_inert s : Str.forallb path_inert s = true -> path_encode s = s.
Proof.
  induction s as [|c s IH]; [reflexivity|]. cbn [Str.forallb].
  intros [Hc Hs]%andb_true_iff.
  rewrite path_encode_cons, (path_inert_encode c Hc), (IH Hs). reflexivity.
Qed.

Lemma is_dot_char_to_lower c :
  is_dot_char (Chars.to_lower c) = true -> is_dot_char c = true.
Proof. each_ascii c. Qed.

Lemma dot_chars_lower s :
  Str.forallb is_dot_char (URL.lower s) = true -> Str.forallb is_dot_char s = true.
Proof.
  induction s as [|c s IH]; [done|]. cbn [URL.lower Str.map Str.forallb].
  intros [Hc Hs]%andb_true_iff. apply is_dot_char_to_lower in Hc.
  rewrite Hc. apply IH, Hs.
Qed.

(** A dot segment is written with ".", "%", "2" and "e" only. *)
Lemma dot_segment_chars s :
  URL.is_single_dot s || URL.is_double_dot s = true ->
  Str.forallb is_dot_char s = true.
Proof.
  intros H. apply dot_chars_lower.
  apply orb_true_iff in H as [H|H]; apply bool_decide_eq_true_1 in H;
    repeat (apply elem_of_cons in H as [->|H]; [reflexivity|]);
    by apply elem_of_nil in H.
Qed.

Lemma not_dot_segment s :
  Str.forallb is_dot_char s = false ->
  URL.is_single_dot s = false /\ URL.is_double_dot s = false.
Proof.
  intros H. apply orb_false_iff.
  destruct (URL.is_single_dot s || URL.is_double_dot s) eqn:E; [|done].
  apply dot_segment_chars in E. congruence.
Qed.

(** A segment that ends in something that no dot segment holds, such as
    ":1", is a single segment as soon as its characters are. *)
Lemma single_segment_with_suffix s t :
  Str.forallb segment_char s = true ->
  Str.forallb segment_char t = true ->
  Str.forallb is_dot_char (path_encode t) = false ->
  single_segment (s +:+ t) = true.
Proof.
  intros Hs Ht Hdot. unfold single_segment.
  destruct (not_dot_segment (path_encode (s +:+ t))) as [-> ->].
  - rewrite path_encode_app, forallb_app, Hdot. apply andb_false_r.
  - rewrite forallb_app, Hs, Ht. reflexivity.
Qed.

(** A literal segment is a single segment, and its own encoding. *)
Lemma path_literal_single_segment s :
  path_literal s = true -> single_segment s = true /\ path_encode s = s.
Proof.
  unfold path_literal, single_segment.
  intros [[Hinert H1]%andb_true_iff H2]%andb_true_iff.
  rewrite (path_encode_inert _ Hinert), H1, H2.
  rewrite (forallb_impl _ _ _ path_inert_segment_char Hinert). done.
Qed.

(** The path state gathers the characters of a segment, encoded, in its
    buffer. *)
Lemma path_state_segment special file s rest p buffer :
  Str.forallb segment_char s = true ->
  URL.path_state special file (s +:+ rest) p buffer
  = URL.path_state special file rest p (buffer +:+ path_encode s).
Proof.
  revert buffer. induction s as [|c s IH]; intros buffer.
  - intros _. rewrite str_app_nil_l. cbn [path_encode Str.concat_map].
    rewrite str_app_nil_r. reflexivity.
  - cbn [Str.forallb]. intros [Hc Hs]%andb_true_iff.
    rewrite str_app_cons. cbn [URL.path_state].
    rewrite (segment_char_not_separator c special Hc), (IH _ Hs).
    rewrite path_encode_cons, str_app_assoc. reflexivity.
Qed.

Lemma end_of_single_segment file at_slash first p buffer :
  URL.is_single_dot buffer = false ->
  URL.is_double_dot buffer = false ->
  URL.end_of_segment file at_slash (first :: p) buffer = (first :: p) ++ [buffer].
Proof.
  intros H1 H2. unfold URL.end_of_segment.
  rewrite H1, H2. rewrite bool_decide_eq_false_2 by done.
  rewrite andb_false_r. reflexivity.
Qed.

(** Setting a pathname of two segments, the first of which is a constant of
    the code: the path becomes exactly these two segments, the second one
    percent-encoded. *)
Lemma set_pathname_two_segments o first s :
  URL.has_opaque_path (url o) = false ->
  path_literal first = true ->
  URL.is_windows_drive_letter first = false ->
  single_segment s = true ->
  set_pathname ("/" +:+ first +:+ "/" +:+ s) o
  = {| url := URL.set_path (URL.Segments [first; path_encode s]) (url o);
       searchParams := searchParams o |}.
Proof.
  intros Hopaque Hfirst Hdrive Hs. unfold set_pathname. rewrite Hopaque.
  assert (Hf := Hfirst). unfold path_literal in Hf. unfold single_segment in Hs.
  apply andb_true_iff in Hf as [[Hf1 Hf2%negb_true_iff]%andb_true_iff Hf3%negb_true_iff].
  apply andb_true_iff in Hs as [[Hs1 Hs2%negb_true_iff]%andb_true_iff Hs3%negb_true_iff].
  assert (Hf0 := forallb_impl _ _ _ path_inert_segment_char Hf1).
  change ("/" +:+ first +:+ "/" +:+ s) with (String "/" (first +:+ String "/" s)).
  rewrite filter_all.
  2:{ cbn [Str.forallb]. rewrite forallb_app. cbn [Str.forallb].
      rewrite (forallb_impl _ _ _ segment_char_not_tab_or_newline Hf0).
      rewrite (forallb_impl _ _ _ segment_char_not_tab_or_newline Hs1). reflexivity. }
  do 3 f_equal. unfold URL.path_start_state.
  replace (Chars.is_slash "/" || URL.is_special (url o) && Chars.is_backslash "/")
    with true by reflexivity.
  rewrite (path_state_segment _ _ first _ _ _ Hf0), str_app_nil_l.
  rewrite (path_encode_inert _ Hf1). cbn [URL.path_state].
  replace (Chars.is_slash "/" || URL.is_special (url o) && Chars.is_backslash "/")
    with true by reflexivity.
  replace (URL.end_of_segment _ true [] first) with [first].
  2:{ unfold URL.end_of_segment. rewrite Hf2, Hf3, Hdrive, andb_false_r. reflexivity. }
  rewrite <- (str_app_nil_r s) at 1.
  rewrite (path_state_segment _ _ s _ _ _ Hs1), str_app_nil_l. cbn [URL.path_state].
  by apply end_of_single_segment.
Qed.

Lemma urlencode_literal s : form_literal s = true -> urlencode s = s.
Proof.
  unfold form_literal, urlencode, URL.percent_encode_after_encoding.
  set (g := fun c => negb (URL.urlencoded_set c)).
  set (f := fun c : ascii => if true && Chars.is_code 32 c then "+" else URL.utf8_percent_encode URL.urlencoded_set c).
  induction s as [|c s IH]; [reflexivity|].
  change (Str.forallb g (String c s)) with (g c && Str.forallb g s).
  change (Str.concat_map f (String c s)) with (f c +:+ Str.concat_map f s).
  intros [Hc Hs]%andb_true_iff. rewrite IH by assumption.
  unfold f. rewrite (form_literal_encode c Hc). reflexivity.
Qed.

Lemma serialize_one_parameter name value :
  URL.urlencoded_serialize [(name, value)] = urlencode name +:+ "=" +:+ urlencode value.
Proof. reflexivity. Qed.

(** ** The variant-id regular expression *)

Lemma replace_variant_gid_unfold s :
  replace_variant_gid s
  = match match_variant_gid s with
    | Some (digits, rest) => digits +:+ rest
    | None =>
        match s with
        | EmptyString => EmptyString
        | String c r => String c (replace_variant_gid r)
        end
    end.
Proof. destruct s; reflexivity. Qed.

Lemma match_variant_gid_Some s digits rest :
  match_variant_gid s = Some (digits, rest) ->
  exists d digits',
    digits = String d digits' /\ Chars.is_digit d = true /\
    s = variant_gid_prefix +:+ String d (digits' +:+ rest).
Proof.
  unfold match_variant_gid.
  destruct (Str.strip_prefix variant_gid_prefix s) as [r|] eqn:Hp; [|done].
  destruct (Str.span Chars.is_digit r) as [a b] eqn:Hspan.
  destruct a as [|d a]; [done|]. intros [= <- <-].
  apply strip_prefix_Some in Hp. apply span_spec in Hspan as [-> Hd].
  simpl in Hd. apply andb_true_iff in Hd as [Hd _].
  exists d, a. rewrite <- str_app_cons. done.
Qed.

(** An id of the documented form is replaced by its digits. *)
Lemma replace_variant_gid_exact digits :
  digits <> EmptyString ->
  Str.forallb Chars.is_digit digits = true ->
  replace_variant_gid (variant_gid_prefix +:+ digits) = digits.
Proof.
  intros Hne Hd. rewrite replace_variant_gid_unfold. unfold match_variant_gid.
  rewrite strip_prefix_app, (span_all _ _ Hd).
  destruct digits; [done|]. apply str_app_nil_r.
Qed.

Lemma no_variant_gid_tail c r : no_variant_gid (String c r) -> no_variant_gid r.
Proof.
  intros H pre d post ->. apply (H (String c pre) d post). reflexivity.
Qed.

(** An id without a match stays as it is. *)
Lemma replace_variant_gid_none v : no_variant_gid v -> replace_variant_gid v = v.
Proof.
  induction v as [|c r IH]; intros Hno; rewrite replace_variant_gid_unfold.
  - reflexivity.
  - destruct (match_variant_gid (String c r)) as [[digits rest]|] eqn:Hm.
    + apply match_variant_gid_Some in Hm as (d & ds & -> & Hd & Heq).
      rewrite (Hno EmptyString d (ds +:+ rest)) in Hd; [done|]. exact Heq.
    + rewrite IH; [reflexivity|]. eapply no_variant_gid_tail, Hno.
Qed.

(** ** The URL helpers on a plain shop URL *)

Lemma serialize_two_segments u a b :
  URL.path u = URL.Segments [a; b] ->
  Str.is_empty a = false ->
  URL.fragment u = None ->
  URL.serialize u
  = URL.site u +:+ "/" +:+ a +:+ "/" +:+ b +:+
    match URL.query u with Some q => "?" +:+ q | None => EmptyString end.
Proof.
  intros Hpath Ha Hfrag. unfold URL.serialize, URL.path_guard.
  rewrite Hpath, Hfrag. destruct a as [|c a]; [done|].
  replace (match URL.host u with Some _ | _ => EmptyString end) with EmptyString
    by (destruct (URL.host u); reflexivity).
  unfold URL.serialize_path. simpl foldr.
  rewrite !str_app_nil_l, !str_app_nil_r, !str_app_assoc. reflexivity.
Qed.

Section Helpers.
Context `{Platform}.

Lemma new_URL_no_query input o :
  new_URL input = Returns o -> URL.query (url o) = None -> searchParams o = [].
Proof.
  unfold new_URL.
  destruct (URL.scheme_start_state _) as [[scheme remaining]|]; [|done].
  destruct (url_after_scheme scheme remaining) as [u|]; [|done].
  intros [= <-]. simpl. intros ->. reflexivity.
Qed.

Lemma productViewURL_plain o productHandle discountCode :
  new_URL (toString o) = Returns o ->
  URL.has_opaque_path (url o) = false ->
  URL.query (url o) = None ->
  URL.fragment (url o) = None ->
  truthy discountCode = false ->
  single_segment productHandle = true ->
  productViewURL (toString o) productHandle discountCode
  = Returns (URL.site (url o) +:+ "/products/" +:+ path_encode productHandle).
Proof.
  intros Hparse Hopaque Hquery Hfrag Hfalsy Hsegment. unfold productViewURL.
  rewrite Hparse. unfold bind_completion. rewrite Hfalsy.
  change ("/products/" +:+ productHandle) with ("/" +:+ "products" +:+ "/" +:+ productHandle).
  rewrite set_pathname_two_segments by done. unfold toString, url at 1.
  rewrite (serialize_two_segments _ "products" (path_encode productHandle)) by done.
  change (URL.query (URL.set_path _ (url o))) with (URL.query (url o)).
  rewrite Hquery, str_app_nil_r. reflexivity.
Qed.

Lemma productViewURL_discount o productHandle code :
  new_URL (toString o) = Returns o ->
  URL.has_opaque_path (url o) = false ->
  URL.query (url o) = None ->
  URL.fragment (url o) = None ->
  code <> EmptyString ->
  single_segment code = true ->
  productViewURL (toString o) productHandle (Some code)
  = Returns (URL.site (url o) +:+ "/discount/" +:+ path_encode code +:+ "?redirect="
             +:+ urlencode ("/products/" +:+ productHandle)).
Proof.
  intros Hparse Hopaque Hquery Hfrag Hne Hsegment. unfold productViewURL.
  rewrite Hparse. unfold bind_completion.
  replace (truthy (Some code)) with true by (destruct code; done).
  change ("/discount/" +:+ default EmptyString (Some code))
    with ("/" +:+ "discount" +:+ "/" +:+ code).
  rewrite set_pathname_two_segments by done.
  unfold searchParams_append, toString, url at 1, searchParams at 1.
  rewrite (new_URL_no_query _ _ Hparse Hquery), app_nil_l, serialize_one_parameter.
  rewrite (serialize_two_segments _ "discount" (path_encode code)) by done.
  reflexivity.
Qed.

(** Whatever its arguments, the checkout helper returns a URL as soon as its
    host parses. *)
Lemma productCheckoutURL_returns o host variantId quantity discountCode :
  new_URL host = Returns o ->
  exists redirect,
    productCheckoutURL host variantId quantity discountCode = Returns redirect.
Proof.
  intros Hparse. unfold productCheckoutURL. rewrite Hparse. eexists. reflexivity.
Qed.

Lemma productCheckoutURL_segment o variantId discountCode code :
  new_URL (toString o) = Returns o ->
  URL.has_opaque_path (url o) = false ->
  URL.query (url o) = None ->
  URL.fragment (url o) = None ->
  Str.forallb segment_char (replace_variant_gid variantId) = true ->
  (if truthy discountCode then discountCode = Some code else code = EmptyString) ->
  productCheckoutURL (toString o) variantId (Some 1) discountCode
  = Returns (URL.site (url o) +:+ "/cart/" +:+ path_encode (replace_variant_gid variantId)
             +:+ ":1" +:+ discount_query code).
Proof.
  intros Hparse Hopaque Hquery Hfrag Hsegment Hcode. unfold productCheckoutURL.
  rewrite Hparse. unfold bind_completion.
  set (id := replace_variant_gid variantId) in *.
  change ("/cart/" +:+ id +:+ ":" +:+ Str.of_Z (default 1 (Some 1)))
    with ("/" +:+ "cart" +:+ "/" +:+ (id +:+ ":1")).
  rewrite set_pathname_two_segments; [|done..|by apply single_segment_with_suffix].
  rewrite path_encode_app. change (path_encode ":1") with ":1".
  destruct (truthy discountCode) eqn:Htruthy.
  - subst discountCode. destruct code as [|c code]; [done|].
    unfold searchParams_append, toString, url at 1, searchParams at 1.
    rewrite (new_URL_no_query _ _ Hparse Hquery), app_nil_l, serialize_one_parameter.
    rewrite (serialize_two_segments _ "cart" (path_encode id +:+ ":1")) by done.
    rewrite !str_app_assoc. reflexivity.
  - subst code. unfold toString, url at 1.
    rewrite (serialize_two_segments _ "cart" (path_encode id +:+ ":1")) by done.
    change (URL.query (URL.set_path _ (url o))) with (URL.query (url o)).
    rewrite Hquery, !str_app_assoc. reflexivity.
Qed.


End Helpers.

(** ** The scheme states *)

Lemma is_colon c : Chars.is_code 58 c = true -> c = ":"%char.
Proof. each_ascii c. Qed.

Lemma alpha_is_scheme_char c : Chars.is_alpha c = true -> URL.is_scheme_char c = true.
Proof. each_ascii c. Qed.

Lemma scheme_state_Some buffer input scheme remaining :
  URL.scheme_state buffer input = Some (scheme, remaining) ->
  exists name,
    input = name +:+ String ":" remaining /\ Str.forallb URL.is_scheme_char name = true.
Proof.
  revert buffer. induction input as [|c input IH]; intros buffer; [done|].
  cbn [URL.scheme_state]. destruct (URL.is_scheme_char c) eqn:Hc.
  - intros (name & -> & Hname)%IH. exists (String c name).
    cbn [Str.forallb]. rewrite Hc, Hname. done.
  - destruct (Chars.is_code 58 c) eqn:Hcolon; [|done]. intros [= <- <-].
    apply is_colon in Hcolon as ->. exists EmptyString. done.
Qed.

(** The parser gets past the scheme states only on an input that has a
    scheme. *)
Lemma scheme_start_state_Some input scheme remaining :
  URL.scheme_start_state (URL.clean input) = Some (scheme, remaining) ->
  has_scheme input.
Proof.
  unfold has_scheme. destruct (URL.clean input) as [|c rest]; [done|].
  cbn [URL.scheme_start_state]. destruct (Chars.is_alpha c) eqn:Hc; [|done].
  intros (name & -> & Hname)%scheme_state_Some.
  exists (String c name), remaining. split; [reflexivity|].
  cbn [is_scheme_name]. rewrite Hc, Hname. done.
Qed.

Lemma clean_keeps_no_char p input :
  Str.existsb p input = false -> Str.existsb p (URL.clean input) = false.
Proof.
  intros Hno. destruct (Str.existsb p (URL.clean input)) eqn:E; [|done].
  unfold URL.clean in E.
  apply existsb_filter, existsb_drop_while_end, existsb_drop_while in E. congruence.
Qed.

(** An input without a colon has no scheme. *)
Lemma no_colon_lacks_scheme input :
  Str.existsb (Chars.is_code 58) input = false -> lacks_scheme input.
Proof.
  intros Hno (name & remaining & Heq & _).
  apply (clean_keeps_no_char _ _) in Hno. rewrite Heq, existsb_app in Hno.
  cbn [Str.existsb] in Hno. rewrite orb_true_r in Hno. done.
Qed.

(** ** Scans *)

Section Scans.
Context `{Platform}.

Lemma new_URL_lacks_scheme input : lacks_scheme input -> new_URL input = Throws invalid_url.
Proof.
  intros Hlacks. unfold new_URL.
  destruct (URL.scheme_start_state (URL.clean input)) as [[scheme remaining]|] eqn:E;
    [|reflexivity].
  destruct Hlacks. eapply scheme_start_state_Some, E.
Qed.

Lemma query_ready {T} (sql : Sql T) db :
  driver_ready db ->
  QRCodesDatastore.__query sql db
  = match execute sql (polled db) with
    | inl err => (Throws (SqliteError err), polled db)
    | inr (rows, db1) => (Returns rows, db1)
    end.
Proof. unfold QRCodesDatastore.__query. intros [-> | ->]; reflexivity. Qed.

Lemma query_refused {T} (sql : Sql T) db err :
  head (driver_errors db) = Some (Some err) ->
  QRCodesDatastore.__query sql db = (Throws (SqliteError err), polled db).
Proof. unfold QRCodesDatastore.__query. intros ->. reflexivity. Qed.

Lemma driver_ready_or_not db :
  driver_ready db \/ exists err, head (driver_errors db) = Some (Some err).
Proof.
  unfold driver_ready. destruct (head (driver_errors db)) as [[err|]|]; eauto.
Qed.

Lemma increaseScanCount_ready qr db :
  driver_ready db ->
  QRCodesDatastore.__increaseScanCount qr db = (Returns tt, scanned (id qr) db).
Proof.
  intros Hready. unfold QRCodesDatastore.__increaseScanCount, await.
  rewrite (query_ready _ _ Hready). reflexivity.
Qed.

Lemma increaseScanCount_refused qr db err :
  head (driver_errors db) = Some (Some err) ->
  QRCodesDatastore.__increaseScanCount qr db = (Throws (SqliteError err), polled db).
Proof.
  intros Hrefused. unfold QRCodesDatastore.__increaseScanCount, await.
  rewrite (query_refused _ _ _ Hrefused). reflexivity.
Qed.

(** A scan that the driver lets through: the counter statement runs, then
    the destination is resolved. *)
Lemma handleCodeScan_ready qr db :
  driver_ready db ->
  QRCodesDatastore.handleCodeScan qr db
  = (match new_URL (shopDomain qr) with
     | Throws e => Throws e
     | Returns url =>
         if decide (destination qr = "product")
         then QRCodesDatastore.__goToProductView url qr
         else if decide (destination qr = "checkout")
              then QRCodesDatastore.__goToProductCheckout url qr
              else Throws (QRCodesDatastore.unrecognized_destination (destination qr))
     end,
     scanned (id qr) db).
Proof.
  intros Hready. unfold QRCodesDatastore.handleCodeScan, await at 1.
  rewrite (increaseScanCount_ready _ _ Hready). unfold await, lift, reject.
  destruct (new_URL (shopDomain qr)); [|reflexivity].
  repeat case_decide; reflexivity.
Qed.

Lemma handleCodeScan_refused qr db err :
  head (driver_errors db) = Some (Some err) ->
  QRCodesDatastore.handleCodeScan qr db = (Throws (SqliteError err), polled db).
Proof.
  intros Hrefused. unfold QRCodesDatastore.handleCodeScan, await at 1.
  rewrite (increaseScanCount_refused _ _ _ Hrefused). reflexivity.
Qed.

Lemma scanned_lookup i db :
  qr_codes (scanned i db) !! i = bump_scans <$> qr_codes db !! i.
Proof. unfold scanned. cbn [qr_codes]. apply lookup_alter_eq. Qed.

Lemma scanned_lookup_ne i j db :
  i <> j -> qr_codes (scanned i db) !! j = qr_codes db !! j.
Proof. intros Hne. unfold scanned. cbn [qr_codes]. by apply lookup_alter_ne. Qed.

Lemma sqlite_add_one_below n : n <= int64_max -> sqlite_add_one n = n + 1.
Proof. intros Hn. unfold sqlite_add_one. destruct (Z.leb_spec n int64_max); lia. Qed.

Lemma sqlite_add_one_le n : n <= sqlite_add_one n.
Proof. unfold sqlite_add_one. destruct (n <=? int64_max); lia. Qed.

End Scans.

(** ** The record store *)

Lemma foldr_max_ge (l : list Z) k : k ∈ l -> k <= foldr Z.max 0 l.
Proof.
  induction l as [|x l IH]; [by intros ?%elem_of_nil|].
  intros [->|Hk]%elem_of_cons; simpl; [lia|]. specialize (IH Hk). lia.
Qed.

Lemma largest_rowid_ge (t : gmap Z Row) k r : t !! k = Some r -> k <= largest_rowid t.
Proof.
  intros Hk. apply foldr_max_ge. apply list_elem_of_fmap.
  exists (k, r). split; [reflexivity|]. by apply elem_of_map_to_list.
Qed.

Lemma largest_rowid_nonneg (t : gmap Z Row) : 0 <= largest_rowid t.
Proof.
  unfold largest_rowid. induction (fst <$> map_to_list t) as [|k l IH]; cbn; lia.
Qed.

(** A safe integer reaches JavaScript as it is. *)
Lemma js_number_safe n : safe_integer n -> js_number n = n.
Proof.
  unfold safe_integer, max_safe_integer, js_number. intros Hsafe.
  destruct (Z.leb_spec (Z.abs n) (2 ^ 53)) as [_|Hlarge]; [reflexivity|].
  change (2 ^ 53) with 9007199254740992 in Hlarge. lia.
Qed.

Section Store.
Context `{Platform}.

(** What [create] does once the driver lets the INSERT through. *)
Lemma create_ready q db :
  driver_ready db ->
  let high := Z.max (largest_rowid (qr_codes db)) (sqlite_sequence db) in
  QRCodesDatastore.create q db
  = if int64_max <=? high then (Throws (SqliteError "SQLITE_FULL"), polled db)
    else (Returns (js_number (high + 1)),
          mkDatabase
            (<[high + 1 :=
                 mkRow (shopDomain q) (title q) (productId q) (variantId q) (handle q)
                   (discountId q) (discountCode q) (destination q) 0 (localtime db)]>
               (qr_codes db))
            (high + 1) (localtime db) (tail (driver_errors db))).
Proof.
  intros Hready high. unfold QRCodesDatastore.create, await.
  rewrite (query_ready _ _ Hready). cbn [execute polled qr_codes sqlite_sequence].
  fold high. destruct (int64_max <=? high); reflexivity.
Qed.

Lemma create_refused q db err :
  head (driver_errors db) = Some (Some err) ->
  QRCodesDatastore.create q db = (Throws (SqliteError err), polled db).
Proof.
  intros Hrefused. unfold QRCodesDatastore.create, await.
  rewrite (query_refused _ _ _ Hrefused). reflexivity.
Qed.

Lemma update_ready i q db :
  driver_ready db ->
  QRCodesDatastore.update i q db
  = (Returns true,
     mkDatabase (alter (updated_row q) i (qr_codes db)) (sqlite_sequence db)
       (localtime db) (tail (driver_errors db))).
Proof.
  intros Hready. unfold QRCodesDatastore.update, await.
  rewrite (query_ready _ _ Hready). reflexivity.
Qed.

Lemma update_refused i q db err :
  head (driver_errors db) = Some (Some err) ->
  QRCodesDatastore.update i q db = (Throws (SqliteError err), polled db).
Proof.
  intros Hrefused. unfold QRCodesDatastore.update, await.
  rewrite (query_refused _ _ _ Hrefused). reflexivity.
Qed.

Lemma read_ready i db :
  driver_ready db ->
  QRCodesDatastore.read i db
  = (Returns (QRCodesDatastore.__addImageUrl <$> (qrcode_of_row i <$> qr_codes db !! i)),
     polled db).
Proof.
  intros Hready. unfold QRCodesDatastore.read, await.
  rewrite (query_ready _ _ Hready). cbn [execute polled qr_codes].
  destruct (qr_codes db !! i); reflexivity.
Qed.

Lemma read_after i db : qr_codes (after (QRCodesDatastore.read i db)) = qr_codes db
  /\ sqlite_sequence (after (QRCodesDatastore.read i db)) = sqlite_sequence db.
Proof.
  destruct (driver_ready_or_not db) as [Hready|[err Hrefused]].
  - rewrite (read_ready _ _ Hready). done.
  - unfold QRCodesDatastore.read, await. rewrite (query_refused _ _ _ Hrefused). done.
Qed.

Lemma list_after s db : qr_codes (after (QRCodesDatastore.list s db)) = qr_codes db
  /\ sqlite_sequence (after (QRCodesDatastore.list s db)) = sqlite_sequence db.
Proof.
  unfold QRCodesDatastore.list, await.
  destruct (driver_ready_or_not db) as [Hready|[err Hrefused]].
  - rewrite (query_ready _ _ Hready). done.
  - rewrite (query_refused _ _ _ Hrefused). done.
Qed.

Lemma delete_after i db :
  (qr_codes (after (QRCodesDatastore.delete i db)) = qr_codes db
   \/ qr_codes (after (QRCodesDatastore.delete i db)) = delete i (qr_codes db))
  /\ sqlite_sequence (after (QRCodesDatastore.delete i db)) = sqlite_sequence db.
Proof.
  unfold QRCodesDatastore.delete, await.
  destruct (driver_ready_or_not db) as [Hready|[err Hrefused]].
  - rewrite (query_ready _ _ Hready). split; [right|]; done.
  - rewrite (query_refused _ _ _ Hrefused). split; [left|]; done.
Qed.

End Store.

(** ** The scan counter over time *)

Lemma evolves_same_table db db' :
  qr_codes db' = qr_codes db -> sqlite_sequence db' = sqlite_sequence db ->
  evolves db db'.
Proof.
  intros Ht Hs. split; [lia|]. intros k r' Hk. left. exists r'.
  rewrite <- Ht. split; [done|lia].
Qed.

Lemma evolves_well_sequenced db db' :
  well_sequenced db -> evolves db db' -> well_sequenced db'.
Proof.
  intros Hwf [Hseq Hrows] k r' Hk.
  destruct (Hrows k r' Hk) as [(r & Hr & _)|?]; [|lia].
  specialize (Hwf k r Hr). lia.
Qed.

(** A fresh database file is well-sequenced. *)
Lemma empty_table_well_sequenced n now errors :
  well_sequenced (mkDatabase ∅ n now errors).
Proof. intros k r. cbn [qr_codes]. by rewrite lookup_empty. Qed.

Section CounterOverTime.
Context `{Platform}.

Lemma create_evolves q db : evolves db (after (QRCodesDatastore.create q db)).
Proof.
  destruct (driver_ready_or_not db) as [Hready|[err Hrefused]].
  - rewrite (create_ready _ _ Hready).
    destruct (int64_max <=? _); [by apply evolves_same_table|].
    split; cbn [after snd sqlite_sequence qr_codes]; [lia|].
    intros k r'. destruct (decide (Z.max (largest_rowid (qr_codes db)) (sqlite_sequence db) + 1 = k)) as [<-|Hne].
    + intros _. right. lia.
    + rewrite lookup_insert_ne by done. intros Hk. left. exists r'. split; [done|lia].
  - rewrite (create_refused _ _ _ Hrefused). by apply evolves_same_table.
Qed.

Lemma update_evolves i q db : evolves db (after (QRCodesDatastore.update i q db)).
Proof.
  destruct (driver_ready_or_not db) as [Hready|[err Hrefused]].
  - rewrite (update_ready _ _ _ Hready).
    split; cbn [after snd sqlite_sequence qr_codes]; [lia|].
    intros k r'. destruct (decide (i = k)) as [<-|Hne].
    + rewrite lookup_alter_eq. destruct (qr_codes db !! i) as [r|]; [|done].
      intros [= <-]. left. exists r. split; [done|]. cbn [updated_row row_scans]. lia.
    + rewrite lookup_alter_ne by done. intros Hk. left. exists r'. split; [done|lia].
  - rewrite (update_refused _ _ _ _ Hrefused). by apply evolves_same_table.
Qed.

Lemma delete_evolves i db : evolves db (after (QRCodesDatastore.delete i db)).
Proof.
  destruct (delete_after i db) as [[Ht|Ht] Hs]; [by apply evolves_same_table|].
  split; [lia|]. intros k r'. rewrite Ht. intros Hk%lookup_delete_Some.
  left. exists r'. split; [tauto|lia].
Qed.

Lemma scan_evolves qr db : evolves db (after (QRCodesDatastore.handleCodeScan qr db)).
Proof.
  destruct (driver_ready_or_not db) as [Hready|[err Hrefused]].
  - rewrite (handleCodeScan_ready _ _ Hready). cbn [after snd].
    split; [cbn [scanned sqlite_sequence]; lia|].
    intros k r'. destruct (decide (id qr = k)) as [<-|Hne].
    + rewrite scanned_lookup. destruct (qr_codes db !! id qr) as [r|]; [|done].
      intros [= <-]. left. exists r. split; [done|]. apply sqlite_add_one_le.
    + rewrite scanned_lookup_ne by done. intros Hk. left. exists r'. split; [done|lia].
  - rewrite (handleCodeScan_refused _ _ _ Hrefused). by apply evolves_same_table.
Qed.

Lemma perform_evolves op db : evolves db (perform op db).
Proof.
  destruct op; cbn [perform].
  - apply create_evolves.
  - apply update_evolves.
  - apply evolves_same_table; apply list_after.
  - apply evolves_same_table; apply read_after.
  - apply delete_evolves.
  - apply scan_evolves.
Qed.

(** Over any history of operations, a record that is in the store at both
    ends holds at least the scan count it started with: the count never goes
    down, and an id that was deleted is never handed out again. *)
Lemma perform_all_monotone ops db i n :
  well_sequenced db ->
  i <= sqlite_sequence db ->
  (forall r, qr_codes db !! i = Some r -> n <= row_scans r) ->
  forall r', qr_codes (perform_all ops db) !! i = Some r' -> n <= row_scans r'.
Proof.
  revert db. induction ops as [|op ops IH]; intros db Hwf Hi Hn; [exact Hn|].
  cbn [perform_all fold_left]. fold (perform_all ops (perform op db)).
  pose proof (perform_evolves op db) as Hev.
  apply IH.
  - eapply evolves_well_sequenced; eassumption.
  - destruct Hev as [Hseq _]. lia.
  - intros r1 Hr1. destruct Hev as [_ Hrows].
    destruct (Hrows i r1 Hr1) as [(r & Hr & Hle)|?]; [|lia].
    specialize (Hn r Hr). lia.
Qed.

(** Every database that the module makes of a well-sequenced one is
    well-sequenced. *)
Lemma perform_all_well_sequenced ops db :
  well_sequenced db -> well_sequenced (perform_all ops db).
Proof.
  revert db. induction ops as [|op ops IH]; intros db Hwf; [exact Hwf|].
  cbn [perform_all fold_left]. fold (perform_all ops (perform op db)).
  apply IH. eapply evolves_well_sequenced; [exact Hwf|apply perform_evolves].
Qed.

End CounterOverTime.

(** * The claims *)

Section Claims.
Context `{Platform}.

Lemma empty_code_falsy code :
  if truthy (Some code) then Some code = Some code else code = EmptyString.
Proof. destruct code; reflexivity. Qed.

(** The checkout branch of a scan hands the record to the helper. *)
Lemma scan_checkout qr db o :
  driver_ready db ->
  destination qr = "checkout" ->
  new_URL (shopDomain qr) = Returns o ->
  outcome (QRCodesDatastore.handleCodeScan qr db)
  = productCheckoutURL (toString o) (variantId qr) (Some 1) (Some (discountCode qr)).
Proof.
  intros Hready Hdest Hparse.
  rewrite (handleCodeScan_ready _ _ Hready), Hparse, Hdest. cbn [outcome fst].
  rewrite decide_False by done. rewrite decide_True by done. reflexivity.
Qed.

(** The product branch of a scan hands the record to the helper. *)
Lemma scan_product qr db o :
  driver_ready db ->
  destination qr = "product" ->
  new_URL (shopDomain qr) = Returns o ->
  outcome (QRCodesDatastore.handleCodeScan qr db)
  = productViewURL (toString o) (handle qr) (Some (discountCode qr)).
Proof.
  intros Hready Hdest Hparse.
  rewrite (handleCodeScan_ready _ _ Hready), Hparse, Hdest. cbn [outcome fst].
  rewrite decide_True by done. reflexivity.
Qed.

(** The checkout URL of a scan on a plain shop URL, for any variant id
    whose replaced form stays within one path segment. *)
Lemma scan_checkout_segment qr db o :
  driver_ready db ->
  destination qr = "checkout" ->
  plain_shop_url (shopDomain qr) o ->
  Str.forallb segment_char (replace_variant_gid (variantId qr)) = true ->
  outcome (QRCodesDatastore.handleCodeScan qr db)
  = Returns (URL.site (url o) +:+ "/cart/"
             +:+ path_encode (replace_variant_gid (variantId qr))
             +:+ ":1" +:+ discount_query (discountCode qr)).
Proof.
  intros Hready Hdest (Hparse & Hagain & Hopaque & Hquery & Hfrag) Hsegment.
  rewrite (scan_checkout _ _ _ Hready Hdest Hparse).
  apply productCheckoutURL_segment; try done. apply empty_code_falsy.
Qed.

(** C1, as amended. No variant id makes a scan fail: for every record with
    destination "checkout", when the driver accepts the increment and the
    shop domain is a plain shop URL (it parses to a URL that has no opaque
    path, no query and no fragment, and whose serialization parses back to
    it), the scan returns a URL whatever the variant id is. A variant id that
    holds no match of gid://shopify/ProductVariant/<digits> is used as it is
    under the same conditions: when it stays within one path segment (it
    holds no "/", no backslash, no tab and no newline) the scan returns
    <host>/cart/<variantId>:1 with the id percent-encoded for a path, that is
    <host>/cart/<variantId>:1 as written when the id is made of characters
    that a URL path keeps (no separator and nothing of the path
    percent-encode set); the discount query ?discount=<urlencoded code>
    follows if the record has a discount code. *)
Theorem checkout_keeps_unmatched_variant_id qr db o :
  driver_ready db ->
  destination qr = "checkout" ->
  plain_shop_url (shopDomain qr) o ->
  (exists redirect,
     outcome (QRCodesDatastore.handleCodeScan qr db) = Returns redirect)
  /\ (no_variant_gid (variantId qr) ->
      Str.forallb segment_char (variantId qr) = true ->
      outcome (QRCodesDatastore.handleCodeScan qr db)
      = Returns (URL.site (url o) +:+ "/cart/" +:+ path_encode (variantId qr) +:+ ":1"
                 +:+ discount_query (discountCode qr)))
  /\ (no_variant_gid (variantId qr) ->
      Str.forallb path_inert (variantId qr) = true ->
      outcome (QRCodesDatastore.handleCodeScan qr db)
      = Returns (URL.site (url o) +:+ "/cart/" +:+ variantId qr +:+ ":1"
                 +:+ discount_query (discountCode qr))).
Proof.
  intros Hready Hdest Hplain.
  assert (Hsegment : no_variant_gid (variantId qr) ->
            Str.forallb segment_char (variantId qr) = true ->
            outcome (QRCodesDatastore.handleCodeScan qr db)
            = Returns (URL.site (url o) +:+ "/cart/" +:+ path_encode (variantId qr)
                       +:+ ":1" +:+ discount_query (discountCode qr))).
  { intros Hno Hchars. rewrite <- (replace_variant_gid_none _ Hno) at 1.
    apply scan_checkout_segment; try done. by rewrite replace_variant_gid_none. }
  repeat split.
  - destruct Hplain as (Hparse & Hagain & _).
    rewrite (scan_checkout _ _ _ Hready Hdest Hparse).
    eapply productCheckoutURL_returns, Hagain.
  - exact Hsegment.
  - intros Hno Hinert. rewrite <- (path_encode_inert _ Hinert) at 1.
    apply Hsegment; [exact Hno|].
    exact (forallb_impl _ _ _ path_inert_segment_char Hinert).
Qed.

(** C2, as amended. When the scan-count increment fails, the scan fails
    with it: [handleCodeScan] rejects with the error of the increment, returns
    no URL, and leaves the table as it was. *)
Theorem failed_increment_fails_the_scan qr db e :
  outcome (QRCodesDatastore.__increaseScanCount qr db) = Throws e ->
  QRCodesDatastore.handleCodeScan qr db
  = (Throws e, after (QRCodesDatastore.__increaseScanCount qr db))
  /\ qr_codes (after (QRCodesDatastore.handleCodeScan qr db)) = qr_codes db.
Proof.
  destruct (driver_ready_or_not db) as [Hready|[err Hrefused]].
  - rewrite (increaseScanCount_ready _ _ Hready). done.
  - rewrite (increaseScanCount_refused _ _ _ Hrefused),
      (handleCodeScan_refused _ _ _ Hrefused).
    intros [= <-]. done.
Qed.

(** C3, as amended. In a store that this module has written, the scan
    counter of a record never goes down, whatever operations are performed;
    and every scan that the driver lets through adds exactly one to the
    counter of the scanned record (below the 64-bit ceiling) and leaves every
    other record alone, whether or not the destination then resolves. *)
Theorem scan_counter_over_time db :
  well_sequenced db ->
  (forall ops i r r',
     qr_codes db !! i = Some r ->
     qr_codes (perform_all ops db) !! i = Some r' ->
     row_scans r <= row_scans r')
  /\ (forall qr r,
        driver_ready db ->
        qr_codes db !! id qr = Some r ->
        row_scans r <= int64_max ->
        (exists r',
           qr_codes (after (QRCodesDatastore.handleCodeScan qr db)) !! id qr = Some r'
           /\ row_scans r' = row_scans r + 1)
        /\ forall j, j <> id qr ->
             qr_codes (after (QRCodesDatastore.handleCodeScan qr db)) !! j
             = qr_codes db !! j).
Proof.
  intros Hwf. split.
  - intros ops i r r' Hr Hr'.
    apply (perform_all_monotone ops db i (row_scans r)); try done.
    + eapply Hwf, Hr.
    + intros r0. rewrite Hr. intros [= <-]. lia.
  - intros qr r Hready Hr Hbelow.
    rewrite (handleCodeScan_ready _ _ Hready). cbn [after snd]. split.
    + exists (bump_scans r). rewrite scanned_lookup, Hr. split; [done|].
      cbn [bump_scans row_scans]. by apply sqlite_add_one_below.
    + intros j Hj. by apply scanned_lookup_ne.
Qed.

(** C4, as amended. [update] never fails for want of the record: on an
    identifier that is not in the store it succeeds and changes nothing; on
    one that is, it replaces exactly the mutable fields (title, product id,
    variant id, handle, discount id, discount code, destination) of that
    record, keeping its shop domain, scan count and creation time, and leaves
    every other record alone. *)
Theorem update_replaces_mutable_fields i q db :
  driver_ready db ->
  outcome (QRCodesDatastore.update i q db) = Returns true
  /\ (qr_codes db !! i = None ->
      qr_codes (after (QRCodesDatastore.update i q db)) = qr_codes db)
  /\ (forall r, qr_codes db !! i = Some r ->
        qr_codes (after (QRCodesDatastore.update i q db)) !! i = Some (updated_row q r))
  /\ (forall j, j <> i ->
        qr_codes (after (QRCodesDatastore.update i q db)) !! j = qr_codes db !! j).
Proof.
  intros Hready. rewrite (update_ready _ _ _ Hready).
  cbn [outcome after fst snd qr_codes]. repeat split.
  - intros Hnone. apply map_eq. intros j. destruct (decide (i = j)) as [<-|Hne].
    + by rewrite lookup_alter_eq, Hnone.
    + by rewrite lookup_alter_ne.
  - intros r Hr. by rewrite lookup_alter_eq, Hr.
  - intros j Hj. by rewrite lookup_alter_ne.
Qed.

(** C5, as amended. For every record whose destination is neither
    "product" nor "checkout", a scan never returns a redirect URL. It fails
    with the unrecognized-destination error, a thrown string that carries the
    offending value, once the driver has accepted the increment and the shop
    domain has parsed as a URL. A failure that comes before the dispatch is
    reported instead of it: the error of the driver when the increment is
    refused, and the error of the URL constructor when the shop domain does
    not parse. *)
Theorem unrecognized_destination_fails qr db :
  destination qr <> "product" ->
  destination qr <> "checkout" ->
  (forall redirect, outcome (QRCodesDatastore.handleCodeScan qr db) <> Returns redirect)
  /\ (forall o,
        driver_ready db ->
        new_URL (shopDomain qr) = Returns o ->
        outcome (QRCodesDatastore.handleCodeScan qr db)
        = Throws (ThrownString
                    ("Unrecognized destination " +:+ String Chars.dquote (destination qr)
                       +:+ String Chars.dquote EmptyString)))
  /\ (forall err,
        head (driver_errors db) = Some (Some err) ->
        outcome (QRCodesDatastore.handleCodeScan qr db) = Throws (SqliteError err))
  /\ (forall e,
        driver_ready db ->
        new_URL (shopDomain qr) = Throws e ->
        outcome (QRCodesDatastore.handleCodeScan qr db) = Throws e).
Proof.
  intros Hproduct Hcheckout. split; [|split; [|split]].
  - intros redirect. destruct (driver_ready_or_not db) as [Hready|[err Hrefused]].
    + rewrite (handleCodeScan_ready _ _ Hready). cbn [outcome fst].
      destruct (new_URL (shopDomain qr)); [|done].
      rewrite !decide_False by done. done.
    + rewrite (handleCodeScan_refused _ _ _ Hrefused). done.
  - intros o Hready Hparse.
    rewrite (handleCodeScan_ready _ _ Hready), Hparse. cbn [outcome fst].
    rewrite !decide_False by done. reflexivity.
  - intros err Hrefused. by rewrite (handleCodeScan_refused _ _ _ Hrefused).
  - intros e Hready Hparse.
    by rewrite (handleCodeScan_ready _ _ Hready), Hparse.
Qed.

(** C6, as amended. For every record with destination "product", when the
    driver accepts the increment and the shop domain is a plain shop URL (it
    parses to a URL that has no opaque path, no query and no fragment, and
    whose serialization parses back to it): with no discount code the scan
    yields <host>/products/<handle>; with discount code D it yields
    <host>/discount/D?redirect=<urlencoded "/products/<handle>">. This holds
    for a handle (first case) and a code (second case) that make one path
    segment: no "/", no backslash, no tab, no newline, and not a dot segment
    (".", "..", or these with "%2e" for a dot). In the path they stand
    percent-encoded; they stand as written when made of characters that a URL
    path keeps (no separator and nothing of the path percent-encode set). *)
Theorem product_url qr db o :
  driver_ready db ->
  destination qr = "product" ->
  plain_shop_url (shopDomain qr) o ->
  (discountCode qr = EmptyString ->
   single_segment (handle qr) = true ->
   outcome (QRCodesDatastore.handleCodeScan qr db)
   = Returns (URL.site (url o) +:+ "/products/" +:+ path_encode (handle qr)))
  /\ (discountCode qr = EmptyString ->
      path_literal (handle qr) = true ->
      outcome (QRCodesDatastore.handleCodeScan qr db)
      = Returns (URL.site (url o) +:+ "/products/" +:+ handle qr))
  /\ (discountCode qr <> EmptyString ->
      single_segment (discountCode qr) = true ->
      outcome (QRCodesDatastore.handleCodeScan qr db)
      = Returns (URL.site (url o) +:+ "/discount/" +:+ path_encode (discountCode qr)
                 +:+ "?redirect=" +:+ urlencode ("/products/" +:+ handle qr)))
  /\ (discountCode qr <> EmptyString ->
      path_literal (discountCode qr) = true ->
      outcome (QRCodesDatastore.handleCodeScan qr db)
      = Returns (URL.site (url o) +:+ "/discount/" +:+ discountCode qr
                 +:+ "?redirect=" +:+ urlencode ("/products/" +:+ handle qr))).
Proof.
  intros Hready Hdest (Hparse & Hagain & Hopaque & Hquery & Hfrag).
  rewrite (scan_product _ _ _ Hready Hdest Hparse). repeat split.
  - intros -> Hsegment. by apply productViewURL_plain.
  - intros -> [Hsegment Hsame]%path_literal_single_segment.
    rewrite <- Hsame at 2. by apply productViewURL_plain.
  - intros Hne Hsegment. by apply productViewURL_discount.
  - intros Hne [Hsegment Hsame]%path_literal_single_segment.
    rewrite <- Hsame at 2. by apply productViewURL_discount.
Qed.

(** C7, as amended. For every record with destination "checkout" and a
    variant id gid://shopify/ProductVariant/<digits>, when the driver accepts
    the increment and the shop domain is a plain shop URL (it parses to a URL
    that has no opaque path, no query and no fragment, and whose
    serialization parses back to it): with no discount code the scan yields
    <host>/cart/<digits>:1; with a discount code it yields
    <host>/cart/<digits>:1?discount=<urlencoded code>, which is
    <host>/cart/<digits>:1?discount=<code> for a code of letters, digits,
    "*", "-", "." and "_". *)
Theorem checkout_url qr db o digits :
  driver_ready db ->
  destination qr = "checkout" ->
  plain_shop_url (shopDomain qr) o ->
  variantId qr = variant_gid_prefix +:+ digits ->
  digits <> EmptyString ->
  Str.forallb Chars.is_digit digits = true ->
  (discountCode qr = EmptyString ->
   outcome (QRCodesDatastore.handleCodeScan qr db)
   = Returns (URL.site (url o) +:+ "/cart/" +:+ digits +:+ ":1"))
  /\ (discountCode qr <> EmptyString ->
      outcome (QRCodesDatastore.handleCodeScan qr db)
      = Returns (URL.site (url o) +:+ "/cart/" +:+ digits +:+ ":1?discount="
                 +:+ urlencode (discountCode qr)))
  /\ (discountCode qr <> EmptyString ->
      form_literal (discountCode qr) = true ->
      outcome (QRCodesDatastore.handleCodeScan qr db)
      = Returns (URL.site (url o) +:+ "/cart/" +:+ digits +:+ ":1?discount="
                 +:+ discountCode qr)).
Proof.
  intros Hready Hdest Hplain Hvariant Hne Hdigits.
  assert (Hreplace : replace_variant_gid (variantId qr) = digits)
    by (rewrite Hvariant; by apply replace_variant_gid_exact).
  assert (Hinert := forallb_impl _ _ _ digit_path_inert Hdigits).
  assert (Hscan := scan_checkout_segment qr db o Hready Hdest Hplain).
  rewrite Hreplace, (path_encode_inert _ Hinert) in Hscan.
  specialize (Hscan (forallb_impl _ _ _ path_inert_segment_char Hinert)).
  rewrite Hscan. unfold discount_query. repeat split.
  - intros ->. cbn [Str.is_empty]. by rewrite str_app_nil_r.
  - intros Hcode. destruct (discountCode qr); [done|]. reflexivity.
  - intros Hcode Hlit. rewrite (urlencode_literal _ Hlit).
    destruct (discountCode qr); [done|]. reflexivity.
Qed.

(** C8, as amended. For every input, on a driver that lets the INSERT
    through and in a store whose identifiers are below
    Number.MAX_SAFE_INTEGER (2^53 - 1, up to which JavaScript holds the
    integers of the id column exactly), [create] inserts a record whose scan
    counter is 0 and returns an identifier that is fresh: above every
    identifier in the table and above the AUTOINCREMENT high-water mark, hence
    never used before. Reading that identifier back returns a record with the
    scan counter 0 and the field values given to [create]. *)
Theorem create_then_read q db :
  driver_ready db ->
  Z.max (largest_rowid (qr_codes db)) (sqlite_sequence db) < max_safe_integer ->
  exists i db',
    QRCodesDatastore.create q db = (Returns i, db')
    /\ qr_codes db !! i = None
    /\ (forall k r, qr_codes db !! k = Some r -> k < i)
    /\ sqlite_sequence db < i
    /\ (exists r, qr_codes db' !! i = Some r /\ row_scans r = 0)
    /\ (forall k, k <> i -> qr_codes db' !! k = qr_codes db !! k)
    /\ (driver_ready db' ->
        exists stored,
          outcome (QRCodesDatastore.read i db') = Returns (Some stored)
          /\ id stored = i /\ scans stored = 0
          /\ shopDomain stored = shopDomain q /\ title stored = title q
          /\ productId stored = productId q /\ variantId stored = variantId q
          /\ handle stored = handle q /\ discountId stored = discountId q
          /\ discountCode stored = discountCode q
          /\ destination stored = destination q).
Proof.
  intros Hready Hroom. rewrite (create_ready _ _ Hready).
  set (high := Z.max (largest_rowid (qr_codes db)) (sqlite_sequence db)) in *.
  assert (Hhigh : 0 <= high)
    by (pose proof (largest_rowid_nonneg (qr_codes db)); lia).
  assert (Hexact : js_number (high + 1) = high + 1)
    by (apply js_number_safe; unfold safe_integer, max_safe_integer in *; lia).
  destruct (Z.leb_spec int64_max high) as [Hfull|_];
    [unfold int64_max, max_safe_integer in *; lia|].
  assert (Hfresh : forall k r, qr_codes db !! k = Some r -> k < high + 1).
  { intros k r Hk%largest_rowid_ge. lia. }
  rewrite Hexact. eexists _, _. split; [reflexivity|]. repeat split.
  - destruct (qr_codes db !! (high + 1)) as [r|] eqn:E; [|done].
    apply Hfresh in E. lia.
  - exact Hfresh.
  - lia.
  - eexists. cbn [qr_codes]. rewrite lookup_insert_eq. done.
  - intros k Hk. cbn [qr_codes]. by rewrite lookup_insert_ne.
  - intros Hready'. rewrite (read_ready _ _ Hready'). cbn [qr_codes outcome fst].
    rewrite lookup_insert_eq. eexists. split; [reflexivity|].
    cbn [QRCodesDatastore.__addImageUrl qrcode_of_row id scans shopDomain title
           productId variantId handle discountId discountCode destination
           row_scans row_shopDomain row_title row_productId row_variantId
           row_handle row_discountId row_discountCode row_destination].
    rewrite Hexact. done.
Qed.


(** C10. For every record whose shop domain lacks a scheme, a scan that
    the driver lets through throws at the construction of the URL, whatever
    the destination of the record, and by then the counter statement has run:
    the scanned record's counter is one higher (below the 64-bit ceiling). *)
Theorem schemeless_shop_domain_throws_after_count qr db :
  lacks_scheme (shopDomain qr) ->
  driver_ready db ->
  QRCodesDatastore.handleCodeScan qr db = (Throws invalid_url, scanned (id qr) db)
  /\ (forall r,
        qr_codes db !! id qr = Some r ->
        row_scans r <= int64_max ->
        exists r',
          qr_codes (after (QRCodesDatastore.handleCodeScan qr db)) !! id qr = Some r'
          /\ row_scans r' = row_scans r + 1).
Proof.
  intros Hlacks Hready.
  rewrite (handleCodeScan_ready _ _ Hready), (new_URL_lacks_scheme _ Hlacks).
  split; [reflexivity|]. intros r Hr Hbelow. cbn [after snd].
  exists (bump_scans r). rewrite scanned_lookup, Hr. split; [done|].
  cbn [bump_scans row_scans]. by apply sqlite_add_one_below.
Qed.

End Claims.


(** * More of the datastore *)

Lemma qr_codes_polled db : qr_codes (polled db) = qr_codes db.
Proof. reflexivity. Qed.

Section MoreStore.
Context `{Platform}.

Lemma delete_ready i db :
  driver_ready db ->
  QRCodesDatastore.delete i db
  = (Returns true,
     mkDatabase (delete i (qr_codes db)) (sqlite_sequence db) (localtime db)
       (tail (driver_errors db))).
Proof.
  intros Hready. unfold QRCodesDatastore.delete, await.
  rewrite (query_ready _ _ Hready). reflexivity.
Qed.

Lemma delete_refused i db err :
  head (driver_errors db) = Some (Some err) ->
  QRCodesDatastore.delete i db = (Throws (SqliteError err), polled db).
Proof.
  intros Hrefused. unfold QRCodesDatastore.delete, await.
  rewrite (query_refused _ _ _ Hrefused). reflexivity.
Qed.

Lemma read_refused i db err :
  head (driver_errors db) = Some (Some err) ->
  QRCodesDatastore.read i db = (Throws (SqliteError err), polled db).
Proof.
  intros Hrefused. unfold QRCodesDatastore.read, await.
  rewrite (query_refused _ _ _ Hrefused). reflexivity.
Qed.

Lemma list_ready s db :
  driver_ready db ->
  QRCodesDatastore.list s db
  = (Returns
       (QRCodesDatastore.__addImageUrl <$>
          ((fun '(i, r) => qrcode_of_row i r) <$>
             base.filter (fun '(_, r) => row_shopDomain r = s)
               (map_to_list (qr_codes db)))),
     polled db).
Proof.
  intros Hready. unfold QRCodesDatastore.list, await.
  rewrite (query_ready _ _ Hready). reflexivity.
Qed.

Lemma list_refused s db err :
  head (driver_errors db) = Some (Some err) ->
  QRCodesDatastore.list s db = (Throws (SqliteError err), polled db).
Proof.
  intros Hrefused. unfold QRCodesDatastore.list, await.
  rewrite (query_refused _ _ _ Hrefused). reflexivity.
Qed.

(** What [create] returns is the number JavaScript makes of the row after
    the high-water mark. *)
Lemma create_returns q db i db' :
  QRCodesDatastore.create q db = (Returns i, db') ->
  i = js_number (Z.max (largest_rowid (qr_codes db)) (sqlite_sequence db) + 1).
Proof.
  destruct (driver_ready_or_not db) as [Hready|[err Hrefused]].
  - rewrite (create_ready _ _ Hready). destruct (int64_max <=? _); [done|].
    by intros [= <- _].
  - by rewrite (create_refused _ _ _ Hrefused).
Qed.

(** A bound on the ids is a bound on the largest of them. *)
Lemma largest_rowid_le (t : gmap Z Row) b :
  0 <= b ->
  (forall k r, t !! k = Some r -> k <= b) ->
  largest_rowid t <= b.
Proof.
  intros Hb Hall. unfold largest_rowid.
  assert (Hin : forall k, k ∈ fst <$> map_to_list t -> k <= b).
  { intros k [[k' r] [-> Hk%elem_of_map_to_list]]%list_elem_of_fmap.
    exact (Hall _ _ Hk). }
  induction (fst <$> map_to_list t) as [|x l IH]; [exact Hb|]. cbn.
  pose proof (Hin x ltac:(left)).
  specialize (IH (fun k Hk => Hin k ltac:(by right))). lia.
Qed.

Lemma perform_all_evolves ops db :
  sqlite_sequence db <= sqlite_sequence (perform_all ops db).
Proof.
  revert db. induction ops as [|op ops IH]; intros db; [cbn; lia|].
  cbn [perform_all fold_left]. fold (perform_all ops (perform op db)).
  destruct (perform_evolves op db) as [Hseq _]. specialize (IH (perform op db)). lia.
Qed.

(** X1. [read] never fails for want of the record: with the driver ready,
    an identifier that is not in the store reads as [undefined]; one that is
    in the store reads as its row, the text columns as stored, the identifier
    and the scan count as the numbers JavaScript makes of them. Up to
    Number.MAX_SAFE_INTEGER these are the stored integers themselves, and the
    image URL is <scheme>://<host>/qrcodes/<id>/image. Reading changes
    nothing. *)
Theorem read_returns_the_stored_record i db :
  driver_ready db ->
  (qr_codes db !! i = None ->
   outcome (QRCodesDatastore.read i db) = Returns None)
  /\ (forall r,
        qr_codes db !! i = Some r ->
        exists q,
          outcome (QRCodesDatastore.read i db) = Returns (Some q)
          /\ id q = js_number i
          /\ scans q = js_number (row_scans r)
          /\ shopDomain q = row_shopDomain r /\ title q = row_title r
          /\ productId q = row_productId r /\ variantId q = row_variantId r
          /\ handle q = row_handle r /\ discountId q = row_discountId r
          /\ discountCode q = row_discountCode r
          /\ destination q = row_destination r
          /\ createdAt q = row_createdAt r
          /\ (safe_integer i ->
              id q = i
              /\ imageUrl q
                 = Some (hostScheme +:+ "://" +:+ hostName +:+ "/qrcodes/" +:+ Str.of_Z i
                         +:+ "/image"))
          /\ (safe_integer (row_scans r) -> scans q = row_scans r))
  /\ qr_codes (after (QRCodesDatastore.read i db)) = qr_codes db
  /\ sqlite_sequence (after (QRCodesDatastore.read i db)) = sqlite_sequence db.
Proof.
  intros Hready. rewrite (read_ready _ _ Hready). cbn [outcome after fst snd].
  split; [by intros ->|]. split; [|done].
  intros r ->. eexists. split; [reflexivity|].
  cbn [QRCodesDatastore.__addImageUrl qrcode_of_row id scans shopDomain title
         productId variantId handle discountId discountCode destination createdAt
         imageUrl].
  repeat (split; [reflexivity|]). split.
  - intros Hsafe. unfold QRCodesDatastore.__generateQrcodeImageUrl.
    cbn [id qrcode_of_row]. by rewrite (js_number_safe _ Hsafe).
  - intros Hsafe. by apply js_number_safe.
Qed.

(** X2. [delete] removes the record for good and nothing else: with the
    driver ready it returns [true] whether or not the identifier is in the
    store, the identifier then reads as [undefined], every other record and
    the id sequence stay as they were, and deleting again changes nothing. *)
Theorem delete_removes_the_record i db :
  driver_ready db ->
  outcome (QRCodesDatastore.delete i db) = Returns true
  /\ qr_codes (after (QRCodesDatastore.delete i db)) !! i = None
  /\ (forall j, j <> i ->
        qr_codes (after (QRCodesDatastore.delete i db)) !! j = qr_codes db !! j)
  /\ (qr_codes db !! i = None ->
      qr_codes (after (QRCodesDatastore.delete i db)) = qr_codes db)
  /\ sqlite_sequence (after (QRCodesDatastore.delete i db)) = sqlite_sequence db
  /\ (driver_ready (after (QRCodesDatastore.delete i db)) ->
      outcome (QRCodesDatastore.read i (after (QRCodesDatastore.delete i db)))
      = Returns None
      /\ qr_codes (after (QRCodesDatastore.delete i
                            (after (QRCodesDatastore.delete i db))))
         = qr_codes (after (QRCodesDatastore.delete i db))).
Proof.
  intros Hready. rewrite (delete_ready _ _ Hready). cbn [outcome after fst snd qr_codes].
  split; [done|]. split; [apply lookup_delete_eq|].
  split; [by intros j Hj; apply lookup_delete_ne|].
  split; [by apply delete_id|]. split; [done|].
  intros Hready'. rewrite (read_ready _ _ Hready'), (delete_ready _ _ Hready').
  cbn [outcome after fst snd qr_codes]. rewrite lookup_delete_eq, delete_delete_eq. done.
Qed.

(** X3. [list] returns the records of the shop, all of them and no others:
    with the driver ready and the ids of the table within
    Number.MAX_SAFE_INTEGER, an object is in the result exactly when the
    store holds a row of that shop under its id, and it is then the object
    made of that row, with its image URL; no id comes twice; listing changes
    nothing. *)
Theorem list_returns_the_records_of_the_shop s db :
  driver_ready db ->
  (forall i r, qr_codes db !! i = Some r -> safe_integer i) ->
  exists l,
    outcome (QRCodesDatastore.list s db) = Returns l
    /\ (forall q,
          q ∈ l <->
          exists r,
            qr_codes db !! id q = Some r /\ row_shopDomain r = s
            /\ q = stored_qrcode (id q) r)
    /\ NoDup (id <$> l)
    /\ qr_codes (after (QRCodesDatastore.list s db)) = qr_codes db.
Proof.
  intros Hready Hsafe. rewrite (list_ready _ _ Hready). cbn [outcome after fst snd].
  assert (Hid : forall i r, qr_codes db !! i = Some r -> id (stored_qrcode i r) = i)
    by (intros i r Hr; exact (js_number_safe _ (Hsafe _ _ Hr))).
  eexists. split; [reflexivity|]. split; [|split; [|done]].
  - intros q. rewrite <- list_fmap_compose. rewrite list_elem_of_fmap. split.
    + intros ([i r] & -> & [Hshop Hin%elem_of_map_to_list]%list_elem_of_filter).
      exists r. cbn [compose]. fold (stored_qrcode i r). rewrite (Hid _ _ Hin). done.
    + intros (r & Hr & Hshop & Hq). exists (id q, r). split; [exact Hq|].
      apply list_elem_of_filter. split; [exact Hshop|]. by apply elem_of_map_to_list.
  - rewrite <- !list_fmap_compose.
    apply (sublist_NoDup _ (fst <$> map_to_list (qr_codes db)));
      [apply NoDup_fst_map_to_list|].
    erewrite list_fmap_ext; [apply fmap_sublist, sublist_filter|].
    intros n [i r] Hn. cbn.
    apply list_elem_of_lookup_2, list_elem_of_filter in Hn as [_ Hin].
    apply elem_of_map_to_list in Hin. exact (js_number_safe _ (Hsafe _ _ Hin)).
Qed.

(** X4. A CRUD method that rejects has changed nothing: whenever [create],
    [update], [list], [read] or [delete] ends with an error, the table and the
    id sequence are as before. (A scan is different: it may fail after it has
    counted.) *)
Theorem failed_crud_changes_nothing op db e :
  is_scan op = false ->
  failure op db = Some e ->
  qr_codes (perform op db) = qr_codes db
  /\ sqlite_sequence (perform op db) = sqlite_sequence db.
Proof.
  intros Hcrud. destruct (driver_ready_or_not db) as [Hready|[err Hrefused]];
    destruct op as [q|i q|s|i|i|q]; try done; cbn [failure perform].
  - rewrite (create_ready _ _ Hready). destruct (int64_max <=? _); done.
  - by rewrite (update_ready _ _ _ Hready).
  - by rewrite (list_ready _ _ Hready).
  - by rewrite (read_ready _ _ Hready).
  - by rewrite (delete_ready _ _ Hready).
  - by rewrite (create_refused _ _ _ Hrefused).
  - by rewrite (update_refused _ _ _ _ Hrefused).
  - by rewrite (list_refused _ _ _ Hrefused).
  - by rewrite (read_refused _ _ _ Hrefused).
  - by rewrite (delete_refused _ _ _ Hrefused).
Qed.

End MoreStore.

Section StoreOverTime.
Context `{Platform}.

Lemma perform_all_app ops1 ops2 db :
  perform_all (ops1 ++ ops2) db = perform_all ops2 (perform_all ops1 db).
Proof. apply fold_left_app. Qed.

(** In a store that this module has written and whose id sequence is short
    of Number.MAX_SAFE_INTEGER, the id that [create] returns is the one after
    the sequence. *)
Lemma create_returns_next q db i db' :
  well_sequenced db ->
  sqlite_sequence db < max_safe_integer ->
  QRCodesDatastore.create q db = (Returns i, db') ->
  i = Z.max 0 (sqlite_sequence db) + 1 /\ largest_rowid (qr_codes db) < i.
Proof.
  intros Hwf Hroom Hcreate%create_returns.
  assert (Hlargest : largest_rowid (qr_codes db) <= Z.max 0 (sqlite_sequence db)).
  { apply largest_rowid_le; [lia|]. intros k r Hk%Hwf. lia. }
  pose proof (largest_rowid_nonneg (qr_codes db)) as Hnonneg.
  rewrite js_number_safe in Hcreate
    by (unfold safe_integer, max_safe_integer in *; lia).
  lia.
Qed.

(** X5. Identifiers are never reused: in a store that this module has
    written, an identifier that was in the store at some moment is never
    given out again, whatever operations come afterwards (deletions
    included): as long as the id sequence is short of
    Number.MAX_SAFE_INTEGER, a later [create] returns an identifier above it,
    and one that is free at that moment. *)
Theorem identifiers_are_never_reused db ops1 ops2 q i db' k r :
  well_sequenced db ->
  qr_codes (perform_all ops1 db) !! k = Some r ->
  sqlite_sequence (perform_all (ops1 ++ ops2) db) < max_safe_integer ->
  QRCodesDatastore.create q (perform_all (ops1 ++ ops2) db) = (Returns i, db') ->
  k < i /\ qr_codes (perform_all (ops1 ++ ops2) db) !! i = None.
Proof.
  intros Hwf Hk Hroom Hcreate.
  pose proof (perform_all_well_sequenced ops1 db Hwf) as Hwf1.
  pose proof (perform_all_well_sequenced (ops1 ++ ops2) db Hwf) as Hwf2.
  destruct (create_returns_next _ _ _ _ Hwf2 Hroom Hcreate) as [Hi Hlargest].
  rewrite perform_all_app in *.
  pose proof (perform_all_evolves ops2 (perform_all ops1 db)) as Hseq.
  specialize (Hwf1 k r Hk). split; [lia|].
  destruct (qr_codes (perform_all ops2 (perform_all ops1 db)) !! i) as [r'|] eqn:E;
    [|done].
  apply largest_rowid_ge in E. lia.
Qed.

(** X6. Scans add up: on a driver that reports no error, [n] scans of a
    record one after the other add [n] to its counter (up to the 64-bit
    ceiling) and leave its other fields as they were, whether or not the
    destination resolves. *)
Theorem scans_add_up n qr db r :
  driver_errors db = [] ->
  qr_codes db !! id qr = Some r ->
  row_scans r + Z.of_nat n <= int64_max + 1 ->
  exists r',
    qr_codes (perform_all (replicate n (OpScan qr)) db) !! id qr = Some r'
    /\ row_scans r' = row_scans r + Z.of_nat n
    /\ forget_scans r' = forget_scans r.
Proof.
  revert db r. induction n as [|n IH]; intros db r Hidle Hr Hroom.
  - exists r. cbn. split; [done|]. split; [lia|done].
  - cbn [replicate perform_all fold_left perform].
    fold (perform_all (replicate n (OpScan qr))
            (after (QRCodesDatastore.handleCodeScan qr db))).
    assert (Hready : driver_ready db) by (left; by rewrite Hidle).
    rewrite (handleCodeScan_ready _ _ Hready). cbn [after snd].
    destruct (IH (scanned (id qr) db) (bump_scans r)) as (r' & Hr' & Hscans & Hrest).
    + cbn [scanned driver_errors]. by rewrite Hidle.
    + by rewrite scanned_lookup, Hr.
    + cbn [bump_scans row_scans]. rewrite sqlite_add_one_below by lia. lia.
    + exists r'. split; [exact Hr'|]. rewrite Hscans, Hrest.
      cbn [bump_scans row_scans]. rewrite sqlite_add_one_below by lia.
      split; [lia|reflexivity].
Qed.

(** X7. A scan changes nothing but scan counts: whatever the record and
    the state of the driver, after [handleCodeScan] the store holds the same
    rows under the same identifiers with the same fields, scan counts apart,
    and the id sequence is as before. *)
Theorem scan_changes_only_scan_counts qr db :
  forget_scans <$> qr_codes (after (QRCodesDatastore.handleCodeScan qr db))
  = forget_scans <$> qr_codes db
  /\ sqlite_sequence (after (QRCodesDatastore.handleCodeScan qr db))
     = sqlite_sequence db.
Proof.
  destruct (driver_ready_or_not db) as [Hready|[err Hrefused]].
  - rewrite (handleCodeScan_ready _ _ Hready). cbn [after snd]. split; [|done].
    apply map_eq. intros j. rewrite !lookup_fmap.
    destruct (decide (id qr = j)) as [<-|Hne].
    + rewrite scanned_lookup. by destruct (qr_codes db !! id qr).
    + by rewrite scanned_lookup_ne.
  - by rewrite (handleCodeScan_refused _ _ _ Hrefused).
Qed.

(** X8. The redirect is computed from the object passed in, not from the
    store: two scans of the same object answer alike on any two databases
    whose driver is ready; and when the object's id is not in the store (a
    deleted code, say) the scan writes nothing. *)
Theorem scan_outcome_ignores_the_store qr db1 db2 :
  driver_ready db1 ->
  driver_ready db2 ->
  outcome (QRCodesDatastore.handleCodeScan qr db1)
  = outcome (QRCodesDatastore.handleCodeScan qr db2)
  /\ (qr_codes db1 !! id qr = None ->
      qr_codes (after (QRCodesDatastore.handleCodeScan qr db1)) = qr_codes db1).
Proof.
  intros Hready1 Hready2.
  rewrite (handleCodeScan_ready _ _ Hready1), (handleCodeScan_ready _ _ Hready2).
  split; [reflexivity|]. intros Hnone. cbn [after snd scanned qr_codes].
  apply map_eq. intros j. destruct (decide (id qr = j)) as [<-|Hne].
  - by rewrite lookup_alter_eq, Hnone.
  - by rewrite lookup_alter_ne.
Qed.


(** X10. [update] then [read]: the record read back holds the new values
    of the mutable fields and, unchanged, its shop domain and creation time;
    its identifier and scan count are the numbers JavaScript makes of the
    stored ones, which up to Number.MAX_SAFE_INTEGER are these themselves. *)
Theorem update_then_read i q db r :
  driver_ready db ->
  driver_ready (after (QRCodesDatastore.update i q db)) ->
  qr_codes db !! i = Some r ->
  exists stored,
    outcome (QRCodesDatastore.read i (after (QRCodesDatastore.update i q db)))
    = Returns (Some stored)
    /\ title stored = title q /\ productId stored = productId q
    /\ variantId stored = variantId q /\ handle stored = handle q
    /\ discountId stored = discountId q /\ discountCode stored = discountCode q
    /\ destination stored = destination q
    /\ shopDomain stored = row_shopDomain r
    /\ createdAt stored = row_createdAt r
    /\ id stored = js_number i
    /\ scans stored = js_number (row_scans r)
    /\ (safe_integer i -> id stored = i)
    /\ (safe_integer (row_scans r) -> scans stored = row_scans r).
Proof.
  intros Hready Hready' Hr. rewrite (read_ready _ _ Hready').
  rewrite (update_ready _ _ _ Hready). cbn [outcome after fst snd qr_codes].
  rewrite lookup_alter_eq, Hr. eexists. split; [reflexivity|].
  cbn [QRCodesDatastore.__addImageUrl qrcode_of_row id scans shopDomain title
         productId variantId handle discountId discountCode destination createdAt
         row_scans row_shopDomain row_title row_productId row_variantId
         row_handle row_discountId row_discountCode row_destination row_createdAt].
  repeat (split; [reflexivity|]). split; apply js_number_safe.
Qed.

End StoreOverTime.

(** * More of the URL helpers *)

Lemma str_length_app s t :
  String.length (s +:+ t) = (String.length s + String.length t)%nat.
Proof.
  induction s as [|c s IH]; [reflexivity|].
  rewrite str_app_cons. cbn [String.length]. by rewrite IH.
Qed.

(** Two ways of cutting one string, the second cut not after the first. *)
Lemma str_app_aligned x y u v :
  x +:+ y = u +:+ v ->
  (String.length u <= String.length x)%nat ->
  exists w, x = u +:+ w.
Proof.
  revert x. induction u as [|c u IH]; intros x Heq Hlen.
  - exists x. reflexivity.
  - destruct x as [|c' x]; [cbn in Hlen; lia|].
    rewrite !str_app_cons in Heq. injection Heq as -> Heq.
    cbn [String.length] in Hlen.
    destruct (IH x Heq ltac:(lia)) as [w ->]. exists w. reflexivity.
Qed.

(** Cutting at the first slash. *)
Lemma str_cut_at_slash s t a b :
  Str.existsb Chars.is_slash s = false ->
  Str.existsb Chars.is_slash t = false ->
  s +:+ String "/" a = t +:+ String "/" b ->
  s = t /\ a = b.
Proof.
  revert t. induction s as [|c s IH]; intros [|c' t] Hs Ht Heq.
  - rewrite !str_app_nil_l in Heq. by injection Heq as ->.
  - rewrite str_app_nil_l, str_app_cons in Heq. injection Heq as <- _.
    cbn [Str.existsb] in Ht. by apply orb_false_iff in Ht as [Ht _].
  - rewrite str_app_nil_l, str_app_cons in Heq. injection Heq as -> _.
    cbn [Str.existsb] in Hs. by apply orb_false_iff in Hs as [Hs _].
  - rewrite !str_app_cons in Heq. injection Heq as -> Heq.
    cbn [Str.existsb] in Hs, Ht.
    apply orb_false_iff in Hs as [_ Hs]. apply orb_false_iff in Ht as [_ Ht].
    destruct (IH t Hs Ht Heq) as [-> ->]. done.
Qed.

Lemma str_app_inv_head s a b : s +:+ a = s +:+ b -> a = b.
Proof.
  induction s as [|c s IH]; [by rewrite !str_app_nil_l|].
  rewrite !str_app_cons. intros [= Heq]. by apply IH.
Qed.

(** ** Decimal numerals *)

Lemma uint_numeral d : Str.forallb Chars.is_digit (NilEmpty.string_of_uint d) = true.
Proof. induction d; cbn [NilEmpty.string_of_uint Str.forallb]; by rewrite ?IHd. Qed.

Lemma of_Z_numeral z : Str.forallb is_numeral_char (Str.of_Z z) = true.
Proof.
  assert (Hu : forall d, Str.forallb is_numeral_char (NilZero.string_of_uint d) = true).
  { intros d. apply (forallb_impl Chars.is_digit).
    - intros c Hc. unfold is_numeral_char. by rewrite Hc.
    - destruct d; [reflexivity|apply uint_numeral..]. }
  unfold Str.of_Z. destruct (Z.to_int z) as [d|d]; cbn [NilZero.string_of_int].
  - apply Hu.
  - cbn [Str.forallb]. by rewrite Hu.
Qed.

Lemma of_Z_inj a b : Str.of_Z a = Str.of_Z b -> a = b.
Proof.
  unfold Str.of_Z. intros Heq. apply DecimalZ.to_int_inj.
  assert (Hnonnil : forall z, Z.to_int z <> Decimal.Pos Decimal.Nil
                              /\ Z.to_int z <> Decimal.Neg Decimal.Nil).
  { intros [|p|p]; cbn; split; try discriminate; intros [= Hp];
      by apply DecimalPos.Unsigned.to_uint_nonnil in Hp. }
  destruct (Hnonnil a) as [Ha1 Ha2]. destruct (Hnonnil b) as [Hb1 Hb2].
  pose proof (NilZero.isi _ Ha1 Ha2) as Ha. pose proof (NilZero.isi _ Hb1 Hb2) as Hb.
  rewrite Heq in Ha. congruence.
Qed.

Lemma numeral_char_inert c : is_numeral_char c = true -> path_inert c = true.
Proof. each_ascii c. Qed.

Lemma numeral_char_no_slash c : is_numeral_char c = true -> negb (Chars.is_slash c) = true.
Proof. each_ascii c. Qed.

Lemma forallb_negb_existsb p s :
  Str.forallb (fun c => negb (p c)) s = true -> Str.existsb p s = false.
Proof.
  induction s as [|c s IH]; [done|]. cbn [Str.forallb Str.existsb].
  intros [Hc Hs]%andb_true_iff. apply negb_true_iff in Hc. by rewrite Hc, IH.
Qed.

Lemma of_Z_no_slash z : Str.existsb Chars.is_slash (Str.of_Z z) = false.
Proof.
  apply forallb_negb_existsb.
  exact (forallb_impl _ _ _ numeral_char_no_slash (of_Z_numeral z)).
Qed.

(** ** The regular expression, leftmost match *)

(** A string without "g" holds no start of a match, and none that runs
    into a prefix put after it. *)
Lemma no_g_no_earlier_gid pre :
  Str.existsb (Chars.is_code 103) pre = false ->
  no_variant_gid (pre +:+ variant_gid_prefix).
Proof.
  induction pre as [|c pre IH]; intros Hg a d post Heq.
  - apply (f_equal String.length) in Heq. rewrite !str_length_app in Heq.
    cbn in Heq. lia.
  - cbn [Str.existsb] in Hg. apply orb_false_iff in Hg as [Hc Hg].
    destruct a as [|c' a].
    + rewrite str_app_nil_l in Heq. rewrite str_app_cons in Heq.
      injection Heq as -> _. discriminate Hc.
    + rewrite !str_app_cons in Heq. injection Heq as _ Heq.
      exact (IH Hg a d post Heq).
Qed.

Lemma span_digit_app d rest :
  Chars.is_digit d = true ->
  exists a b, Str.span Chars.is_digit (String d rest) = (String d a, b) /\ a +:+ b = rest.
Proof.
  intros Hd. cbn [Str.span]. rewrite Hd.
  destruct (Str.span Chars.is_digit rest) as [a b] eqn:Hspan.
  exists a, b. split; [reflexivity|]. by apply span_spec in Hspan as [-> _].
Qed.

Section MoreHelpers.
Context `{Platform}.

(** X11. The regular expression has no anchors and [replace] takes its
    leftmost match only: when the first occurrence of the prefix followed
    by a digit starts after [pre], that one prefix is removed, and the rest of
    the string, later occurrences included, stays as it is. *)
Theorem replace_variant_gid_leftmost pre d rest :
  no_variant_gid (pre +:+ variant_gid_prefix) ->
  Chars.is_digit d = true ->
  replace_variant_gid (pre +:+ variant_gid_prefix +:+ String d rest)
  = pre +:+ String d rest.
Proof.
  intros Hno Hd. induction pre as [|c pre IH]; rewrite replace_variant_gid_unfold.
  - rewrite str_app_nil_l. unfold match_variant_gid. rewrite strip_prefix_app.
    destruct (span_digit_app d rest Hd) as (a & b & -> & <-).
    cbn [Str.is_empty]. rewrite str_app_nil_l, str_app_cons. reflexivity.
  - rewrite str_app_cons.
    destruct (match_variant_gid _) as [[digits rest']|] eqn:Hm.
    + exfalso. apply match_variant_gid_Some in Hm as (d' & ds & _ & Hd' & Heq).
      rewrite <- str_app_cons, <- str_app_assoc in Heq.
      change (variant_gid_prefix +:+ String d' (ds +:+ rest'))
        with ((variant_gid_prefix +:+ String d' EmptyString) +:+ (ds +:+ rest')) in Heq.
      apply str_app_aligned in Heq as [w Hw].
      * rewrite (Hno EmptyString d' w) in Hd'; [done|].
        rewrite Hw, str_app_nil_l. reflexivity.
      * rewrite !str_length_app. cbn. lia.
    + rewrite str_app_cons. f_equal. apply IH.
      intros a d0 post Heq. apply (Hno (String c a) d0 post).
      rewrite !str_app_cons. by f_equal.
Qed.

(** X12. The scan URL and the image URL of a code determine its id: two
    codes have the same scan URL, or the same image URL, only if they have
    the same id, and no scan URL is an image URL. *)
Theorem qrcode_urls_identify_the_code q1 q2 :
  (QRCodesDatastore.generateQrcodeDestinationUrl q1
   = QRCodesDatastore.generateQrcodeDestinationUrl q2 <-> id q1 = id q2)
  /\ (QRCodesDatastore.__generateQrcodeImageUrl q1
      = QRCodesDatastore.__generateQrcodeImageUrl q2 <-> id q1 = id q2)
  /\ QRCodesDatastore.generateQrcodeDestinationUrl q1
     <> QRCodesDatastore.__generateQrcodeImageUrl q2.
Proof.
  unfold QRCodesDatastore.generateQrcodeDestinationUrl,
    QRCodesDatastore.__generateQrcodeImageUrl.
  assert (Hcut : forall tail1 tail2,
             hostScheme +:+ "://" +:+ hostName +:+ "/qrcodes/"
               +:+ Str.of_Z (id q1) +:+ String "/" tail1
             = hostScheme +:+ "://" +:+ hostName +:+ "/qrcodes/"
               +:+ Str.of_Z (id q2) +:+ String "/" tail2 ->
             id q1 = id q2 /\ tail1 = tail2).
  { intros tail1 tail2 Heq. do 4 apply str_app_inv_head in Heq.
    apply str_cut_at_slash in Heq as [Hid ->]; [|apply of_Z_no_slash..].
    split; [by apply of_Z_inj|reflexivity]. }
  split; [|split].
  - split; [|by intros ->]. intros Heq. by apply (Hcut "scan" "scan") in Heq as [? _].
  - split; [|by intros ->]. intros Heq. by apply (Hcut "image" "image") in Heq as [? _].
  - intros Heq. by apply (Hcut "scan" "image") in Heq as [_ ?].
Qed.

(** X13. The checkout helper with a quantity: for a variant id of the
    documented form, a host that is a plain site URL and a quantity that is an
    integer a JavaScript number holds exactly, the path is
    /cart/<digits>:<quantity>, the quantity being 1 when none is passed, and
    the query is the discount code, form-urlencoded, when there is one. *)
Theorem checkout_with_a_quantity host o digits quantity discountCode :
  safe_integer (default 1 quantity) ->
  new_URL host = Returns o ->
  URL.has_opaque_path (url o) = false ->
  URL.query (url o) = None ->
  URL.fragment (url o) = None ->
  digits <> EmptyString ->
  Str.forallb Chars.is_digit digits = true ->
  productCheckoutURL host (variant_gid_prefix +:+ digits) quantity discountCode
  = Returns (URL.site (url o) +:+ "/cart/" +:+ digits +:+ ":"
             +:+ Str.of_Z (default 1 quantity)
             +:+ discount_query (default EmptyString discountCode)).
Proof.
  intros _ Hparse Hopaque Hquery Hfrag Hne Hdigits. unfold productCheckoutURL.
  rewrite Hparse. unfold bind_completion.
  rewrite (replace_variant_gid_exact _ Hne Hdigits).
  set (n := Str.of_Z (default 1 quantity)).
  assert (Hn : Str.forallb path_inert n = true)
    by exact (forallb_impl _ _ _ numeral_char_inert (of_Z_numeral _)).
  assert (Hd : Str.forallb path_inert digits = true)
    by exact (forallb_impl _ _ _ digit_path_inert Hdigits).
  assert (Htail : Str.forallb path_inert (String ":" n) = true)
    by (cbn [Str.forallb]; by rewrite Hn).
  change ("/cart/" +:+ digits +:+ ":" +:+ n)
    with ("/" +:+ "cart" +:+ "/" +:+ (digits +:+ String ":" n)).
  rewrite set_pathname_two_segments; [|done..|].
  2:{ apply single_segment_with_suffix.
      - exact (forallb_impl _ _ _ path_inert_segment_char Hd).
      - exact (forallb_impl _ _ _ path_inert_segment_char Htail).
      - rewrite (path_encode_inert _ Htail). reflexivity. }
  rewrite path_encode_app, (path_encode_inert _ Hd), (path_encode_inert _ Htail).
  destruct discountCode as [[|c code]|]; cbn [truthy default discount_query Str.is_empty].
  - unfold toString, url at 1.
    rewrite (serialize_two_segments _ "cart" (digits +:+ String ":" n)) by done.
    change (URL.query (URL.set_path _ (url o))) with (URL.query (url o)).
    rewrite Hquery, !str_app_assoc. reflexivity.
  - unfold searchParams_append, toString, url at 1, searchParams at 1.
    rewrite (new_URL_no_query _ _ Hparse Hquery), app_nil_l, serialize_one_parameter.
    rewrite (serialize_two_segments _ "cart" (digits +:+ String ":" n)) by done.
    rewrite !str_app_assoc. reflexivity.
  - unfold toString, url at 1.
    rewrite (serialize_two_segments _ "cart" (digits +:+ String ":" n)) by done.
    change (URL.query (URL.set_path _ (url o))) with (URL.query (url o)).
    rewrite Hquery, !str_app_assoc. reflexivity.
Qed.

(** X14. Both helpers start with [new URL(host)]: a host that lacks a
    scheme makes them throw the [TypeError] of the URL class, whatever the
    other parameters. *)
Theorem helpers_reject_a_host_without_scheme
    host productHandle variantId quantity discountCode :
  lacks_scheme host ->
  productViewURL host productHandle discountCode = Throws invalid_url
  /\ productCheckoutURL host variantId quantity discountCode = Throws invalid_url.
Proof.
  intros Hlacks. unfold productViewURL, productCheckoutURL.
  rewrite (new_URL_lacks_scheme _ Hlacks). done.
Qed.

(** X15. A shop domain that parses to a URL with an opaque path (such as
    localhost:3000, which the URL class reads as scheme localhost and path
    3000) defeats the redirect: the pathname setter does nothing on such a
    URL, so without a discount code a scan of either destination returns the
    shop URL itself, with no product and no cart in it. *)
Theorem opaque_shop_url_is_the_redirect qr db o :
  driver_ready db ->
  new_URL (shopDomain qr) = Returns o ->
  new_URL (toString o) = Returns o ->
  URL.has_opaque_path (url o) = true ->
  discountCode qr = EmptyString ->
  destination qr = "product" \/ destination qr = "checkout" ->
  outcome (QRCodesDatastore.handleCodeScan qr db) = Returns (toString o).
Proof.
  intros Hready Hparse Hagain Hopaque Hcode [Hdest|Hdest].
  - rewrite (scan_product _ _ _ Hready Hdest Hparse). unfold productViewURL.
    rewrite Hagain, Hcode. unfold bind_completion. cbn [truthy].
    unfold set_pathname. by rewrite Hopaque.
  - rewrite (scan_checkout _ _ _ Hready Hdest Hparse). unfold productCheckoutURL.
    rewrite Hagain, Hcode. unfold bind_completion. cbn [truthy].
    unfold set_pathname. by rewrite Hopaque.
Qed.

End MoreHelpers.

(** * Setting up the database *)

Section SetUp.

Import Schema.

Lemma hasQrCodesTable_cases tbls c :
  __hasQrCodesTable (mkSession true tbls c)
  = match head (driver_errors c) with
    | Some (Some err) => (Throws (SqliteError err), mkSession true tbls (polled c))
    | _ => (Returns (bool_decide (qrCodesTableName ∈ tbls)), mkSession true tbls (polled c))
    end.
Proof.
  unfold __hasQrCodesTable, Schema.await, Schema.__query, Schema.resolve.
  cbn [instance tables content execute_file].
  assert (Hrows : (Returns (bool_decide (length (if bool_decide (qrCodesTableName ∈ tbls)
                                                 then [qrCodesTableName] else [])
                                         = 1%nat)),
                   mkSession true tbls (polled c))
                  = (Returns (bool_decide (qrCodesTableName ∈ tbls)),
                     mkSession true tbls (polled c))).
  { destruct (bool_decide (qrCodesTableName ∈ tbls)); reflexivity. }
  destruct (head (driver_errors c)) as [[err|]|]; [reflexivity|exact Hrows..].
Qed.

Lemma create_table_cases tbls c :
  qrCodesTableName ∉ tbls ->
  Schema.__query CreateTableQrCodes (mkSession true tbls c)
  = match head (driver_errors c) with
    | Some (Some err) => (Throws (SqliteError err), mkSession true tbls (polled c))
    | _ =>
        (Returns [],
         mkSession true ({[ qrCodesTableName; "sqlite_sequence" ]} ∪ tbls)
           (mkDatabase ∅ 0 (localtime c) (driver_errors (polled c))))
    end.
Proof.
  intros Hmissing. unfold Schema.__query. cbn [instance tables content execute_file].
  unfold has_table. cbn [tables]. rewrite (bool_decide_eq_false_2 _ Hmissing).
  destruct (head (driver_errors c)) as [[err|]|]; reflexivity.
Qed.

(** What [init] does, case by case: the driver may refuse the SELECT; the
    table may be there; the driver may refuse the CREATE TABLE. *)
Lemma init_cases s :
  let c := content s in
  init s
  = match head (driver_errors c) with
    | Some (Some err) =>
        (Throws (SqliteError err), mkSession true (tables s) (polled c))
    | _ =>
        if has_table s then (Returns tt, mkSession true (tables s) (polled c))
        else
          match head (driver_errors (polled c)) with
          | Some (Some err) =>
              (Throws (SqliteError err), mkSession true (tables s) (polled (polled c)))
          | _ =>
              (Returns tt,
               mkSession true ({[ qrCodesTableName; "sqlite_sequence" ]} ∪ tables s)
                 (mkDatabase ∅ 0 (localtime c) (driver_errors (polled (polled c)))))
          end
    end.
Proof.
  intros c. subst c. destruct s as [inst tbls c]. unfold init.
  replace (if instance (mkSession inst tbls c) then mkSession inst tbls c
           else mkSession true (tables (mkSession inst tbls c))
                  (content (mkSession inst tbls c)))
    with (mkSession true tbls c) by (by destruct inst).
  unfold Schema.await at 1. rewrite hasQrCodesTable_cases.
  unfold has_table. cbn [tables content].
  assert (Hrest :
    (if negb (bool_decide (qrCodesTableName ∈ tbls))
     then Schema.await (Schema.__query CreateTableQrCodes) (fun _ => Schema.resolve tt)
     else Schema.resolve tt) (mkSession true tbls (polled c))
    = if bool_decide (qrCodesTableName ∈ tbls)
      then (Returns tt, mkSession true tbls (polled c))
      else
        match head (driver_errors (polled c)) with
        | Some (Some err) =>
            (Throws (SqliteError err), mkSession true tbls (polled (polled c)))
        | _ =>
            (Returns tt,
             mkSession true ({[ qrCodesTableName; "sqlite_sequence" ]} ∪ tbls)
               (mkDatabase ∅ 0 (localtime c) (driver_errors (polled (polled c)))))
        end).
  { case_bool_decide as Htable; [reflexivity|]. cbn [negb].
    unfold Schema.await. rewrite (create_table_cases _ _ Htable).
    destruct (head (driver_errors (polled c))) as [[err|]|]; reflexivity. }
  destruct (head (driver_errors c)) as [[err|]|]; [reflexivity|exact Hrest..].
Qed.

Lemma polled_ready_head db e :
  driver_ready db -> head (driver_errors db) = Some (Some e) -> False.
Proof. intros [Hr|Hr] He; congruence. Qed.

(** X16. [init] on a file that has the table: it sets the instance and
    resolves, and the tables of the file, the rows and the id sequence are as
    they were; nothing is created again. *)
Theorem init_keeps_an_existing_table s :
  has_table s = true ->
  driver_ready (content s) ->
  exists s',
    init s = (Returns tt, s')
    /\ instance s' = true
    /\ tables s' = tables s
    /\ qr_codes (content s') = qr_codes (content s)
    /\ sqlite_sequence (content s') = sqlite_sequence (content s).
Proof.
  intros Htable Hready. rewrite init_cases. cbn zeta. rewrite Htable.
  exists (mkSession true (tables s) (polled (content s))).
  split; [|done].
  destruct (head (driver_errors (content s))) as [[err|]|] eqn:Hc; [|done..].
  destruct (polled_ready_head _ _ Hready Hc).
Qed.

(** X17. [init] on a file without the table, the driver accepting both
    statements: it resolves, the file then has the table, empty and with its
    id sequence at 0, and the other tables of the file are still there. *)
Theorem init_creates_a_missing_table s :
  has_table s = false ->
  driver_ready (content s) ->
  driver_ready (polled (content s)) ->
  exists s',
    init s = (Returns tt, s')
    /\ instance s' = true
    /\ has_table s' = true
    /\ tables s ⊆ tables s'
    /\ qr_codes (content s') = ∅
    /\ sqlite_sequence (content s') = 0.
Proof.
  intros Htable Hready Hready'. rewrite init_cases. cbn zeta. rewrite Htable.
  eexists (mkSession true _ (mkDatabase ∅ 0 _ _)). split.
  - destruct (head (driver_errors (content s))) as [[err|]|] eqn:Hc;
      [destruct (polled_ready_head _ _ Hready Hc)| |];
      (destruct (head (driver_errors (polled (content s)))) as [[err'|]|] eqn:Hc';
       [destruct (polled_ready_head _ _ Hready' Hc')|reflexivity..]).
  - cbn [instance tables content qr_codes sqlite_sequence].
    split; [done|]. split; [|split; [set_solver|done]].
    unfold has_table. cbn [tables]. apply bool_decide_eq_true_2. set_solver.
Qed.

(** An [init] that resolves leaves the instance set and the table in the
    file. *)
Lemma init_resolved s u s' :
  init s = (Returns u, s') -> instance s' = true /\ has_table s' = true.
Proof.
  rewrite init_cases. cbn zeta.
  destruct (has_table s) eqn:Htable;
    destruct (head (driver_errors (content s))) as [[err|]|];
    try discriminate;
    try (intros [= _ <-]; by split);
    destruct (head (driver_errors (polled (content s)))) as [[err'|]|];
    try discriminate;
    intros [= _ <-]; (split; [done|]);
    unfold has_table; cbn [tables]; apply bool_decide_eq_true_2; set_solver.
Qed.

(** X18. [init] is safe to call again: once it has resolved, the instance
    is set and the table is in the file, and a second [init] resolves without
    touching the tables, the rows or the id sequence. *)
Theorem init_again_changes_nothing s u s1 :
  init s = (Returns u, s1) ->
  instance s1 = true
  /\ has_table s1 = true
  /\ (driver_ready (content s1) ->
      exists s2,
        init s1 = (Returns tt, s2)
        /\ tables s2 = tables s1
        /\ qr_codes (content s2) = qr_codes (content s1)
        /\ sqlite_sequence (content s2) = sqlite_sequence (content s1)).
Proof.
  intros Hinit. destruct (init_resolved _ _ _ Hinit) as [Hinstance Htable].
  split; [done|]. split; [done|]. intros Hready.
  rewrite init_cases. cbn zeta. rewrite Htable.
  exists (mkSession true (tables s1) (polled (content s1))). split; [|done].
  destruct (head (driver_errors (content s1))) as [[err|]|] eqn:Hc; [|done..].
  destruct (polled_ready_head _ _ Hready Hc).
Qed.

(** X19. [init] fails only as the driver does: the error it throws is an
    error of a statement, never the [TypeError] of a missing instance, and a
    failed [init] has created no table and written no row. *)
Theorem failed_init_creates_nothing s e s' :
  init s = (Throws e, s') ->
  (exists err, e = SqliteError err)
  /\ instance s' = true
  /\ tables s' = tables s
  /\ qr_codes (content s') = qr_codes (content s)
  /\ sqlite_sequence (content s') = sqlite_sequence (content s).
Proof.
  rewrite init_cases. cbn zeta.
  destruct (head (driver_errors (content s))) as [[err|]|];
    try (intros [= <- <-]; split; [by eexists|done]);
    (destruct (has_table s); [discriminate|]);
    (destruct (head (driver_errors (polled (content s)))) as [[err'|]|];
     [|discriminate..]);
    intros [= <- <-]; (split; [by eexists|done]).
Qed.

(** X20. What a statement of the CRUD methods needs of the set-up.
    Without an instance, as before any [init], [__query] throws the
    [TypeError] of reading [db] of [undefined] and touches nothing. With an
    instance but no table, a statement that the driver lets through fails
    with SQLITE_ERROR and writes nothing. Once [init] has resolved, neither
    happens: a statement fails only with an error that the driver reports, or
    with SQLITE_FULL when the id sequence is at the last rowid. *)
Theorem statements_need_init {T} (sql : Sql T) s :
  (instance s = false ->
   Schema.__query (OnQrCodes sql) s
   = (Throws (TypeError "Cannot read properties of undefined (reading 'db')"), s))
  /\ (instance s = true ->
      has_table s = false ->
      driver_ready (content s) ->
      Schema.__query (OnQrCodes sql) s
      = (Throws (SqliteError "SQLITE_ERROR"),
         mkSession true (tables s) (polled (content s))))
  /\ (forall u s1 e s2,
        init s = (Returns u, s1) ->
        Schema.__query (OnQrCodes sql) s1 = (Throws e, s2) ->
        (exists err,
           head (driver_errors (content s1)) = Some (Some err) /\ e = SqliteError err)
        \/ (e = SqliteError "SQLITE_FULL"
            /\ int64_max <= Z.max (largest_rowid (qr_codes (content s1)))
                              (sqlite_sequence (content s1)))).
Proof.
  split; [|split].
  - intros Hnone. unfold Schema.__query. by rewrite Hnone.
  - intros Hinstance Hmissing Hready. unfold Schema.__query.
    rewrite Hinstance. cbn [execute_file]. unfold has_table in *.
    cbn [tables content]. rewrite Hmissing.
    destruct (head (driver_errors (content s))) as [[err|]|] eqn:Hc; [|done..].
    destruct (polled_ready_head _ _ Hready Hc).
  - intros u s1 e s2 Hinit. destruct (init_resolved _ _ _ Hinit) as [Hinstance Htable].
    unfold Schema.__query. rewrite Hinstance. cbn [execute_file].
    unfold has_table in *. cbn [tables content]. rewrite Htable.
    destruct (head (driver_errors (content s1))) as [[err|]|] eqn:Hc.
    + intros [= <- _]. left. by exists err.
    + destruct sql; cbn [execute polled qr_codes sqlite_sequence]; try discriminate.
      destruct (Z.leb_spec int64_max
                  (Z.max (largest_rowid (qr_codes (content s1)))
                     (sqlite_sequence (content s1)))) as [Hfull|_]; [|discriminate].
      intros [= <- _]. by right.
    + destruct sql; cbn [execute polled qr_codes sqlite_sequence]; try discriminate.
      destruct (Z.leb_spec int64_max
                  (Z.max (largest_rowid (qr_codes (content s1)))
                     (sqlite_sequence (content s1)))) as [Hfull|_]; [|discriminate].
      intros [= <- _]. by right.
Qed.

End SetUp.
(** * The claims on the reference platform *)

#[local] Existing Instance Reference.platform.

Lemma no_slash_no_variant_gid v :
  Str.existsb Chars.is_slash v = false -> no_variant_gid v.
Proof.
  intros Hno pre d post ->. rewrite !existsb_app in Hno.
  change (Str.existsb Chars.is_slash variant_gid_prefix) with true in Hno.
  rewrite orb_true_l, orb_true_r in Hno. done.
Qed.

Lemma reference_shop_is_plain : plain_shop_url Reference.shop Reference.shop_url.
Proof. repeat split. Qed.

Lemma idle_driver_ready t n now : driver_ready (mkDatabase t n now []).
Proof. by left. Qed.

Lemma database_of_well_sequenced r : well_sequenced (Reference.database_of r).
Proof.
  intros k r'. unfold Reference.database_of. cbn [qr_codes sqlite_sequence].
  intros [-> _]%lookup_singleton_Some. lia.
Qed.

(** C1, refuted as stated: the variant id "12345" is not of the form
    gid://shopify/ProductVariant/<digits>, and the scan returns a URL. *)
Lemma checkout_bare_variant_id_redirects :
  Str.strip_prefix variant_gid_prefix "12345" = None
  /\ outcome (QRCodesDatastore.handleCodeScan
                (Reference.sample "12345" "red-shirt" "" "checkout")
                (Reference.database_of (Reference.row "12345" "red-shirt" "" "checkout")))
     = Returns "https://shop.myshopify.com/cart/12345:1".
Proof. split; reflexivity. Qed.

(** C1 as amended, at the variant id "12345" with the discount code SAVE10. *)
Lemma checkout_keeps_unmatched_variant_id_witness :
  no_variant_gid "12345"
  /\ outcome (QRCodesDatastore.handleCodeScan
                (Reference.sample "12345" "red-shirt" "SAVE10" "checkout")
                Reference.empty_database)
     = Returns "https://shop.myshopify.com/cart/12345:1?discount=SAVE10".
Proof.
  assert (Hno : no_variant_gid "12345") by (by apply no_slash_no_variant_gid).
  split; [exact Hno|].
  destruct (checkout_keeps_unmatched_variant_id
              (Reference.sample "12345" "red-shirt" "SAVE10" "checkout")
              Reference.empty_database Reference.shop_url)
    as (_ & _ & Hliteral).
  - apply idle_driver_ready.
  - reflexivity.
  - apply reference_shop_is_plain.
  - apply Hliteral; [exact Hno|reflexivity].
Defined.

(** C2, refuted as stated: with the database busy the increment fails, and
    the scan of a record that otherwise resolves to a product URL fails with
    the same error instead of returning that URL. *)
Lemma busy_database_blocks_the_redirect :
  outcome (QRCodesDatastore.__increaseScanCount
             (Reference.sample Reference.gid_12345 "red-shirt" "" "product")
             (Reference.busy Reference.empty_database))
  = Throws (SqliteError "SQLITE_BUSY")
  /\ outcome (QRCodesDatastore.handleCodeScan
                (Reference.sample Reference.gid_12345 "red-shirt" "" "product")
                Reference.empty_database)
     = Returns "https://shop.myshopify.com/products/red-shirt"
  /\ outcome (QRCodesDatastore.handleCodeScan
                (Reference.sample Reference.gid_12345 "red-shirt" "" "product")
                (Reference.busy Reference.empty_database))
     = Throws (SqliteError "SQLITE_BUSY").
Proof. repeat split. Qed.

(** C2 as amended, at a busy database. *)
Lemma failed_increment_fails_the_scan_witness :
  outcome (QRCodesDatastore.__increaseScanCount
             (Reference.sample Reference.gid_12345 "red-shirt" "" "product")
             (Reference.busy Reference.empty_database))
  = Throws (SqliteError "SQLITE_BUSY")
  /\ QRCodesDatastore.handleCodeScan
       (Reference.sample Reference.gid_12345 "red-shirt" "" "product")
       (Reference.busy Reference.empty_database)
     = (Throws (SqliteError "SQLITE_BUSY"), Reference.empty_database).
Proof.
  split; [reflexivity|].
  apply (failed_increment_fails_the_scan
           (Reference.sample Reference.gid_12345 "red-shirt" "" "product")
           (Reference.busy Reference.empty_database) (SqliteError "SQLITE_BUSY")).
  reflexivity.
Defined.

(** C3, refuted as stated: a scan of a record with the destination
    "banana" fails to resolve, and the counter of the record has gone from 0 to
    1 all the same. *)
Lemma failed_resolution_is_counted :
  outcome (QRCodesDatastore.handleCodeScan
             (Reference.sample Reference.gid_12345 "red-shirt" "" "banana")
             (Reference.database_of (Reference.row Reference.gid_12345 "red-shirt" "" "banana")))
  = Throws (QRCodesDatastore.unrecognized_destination "banana")
  /\ row_scans <$>
       qr_codes (Reference.database_of
                   (Reference.row Reference.gid_12345 "red-shirt" "" "banana")) !! 1
     = Some 0
  /\ row_scans <$>
       qr_codes (after (QRCodesDatastore.handleCodeScan
                          (Reference.sample Reference.gid_12345 "red-shirt" "" "banana")
                          (Reference.database_of
                             (Reference.row Reference.gid_12345 "red-shirt" "" "banana")))) !! 1
     = Some 1.
Proof. repeat split. Qed.

(** C3 as amended, at a store of one record: over a history of five
    operations, and over one scan. *)
Lemma scan_counter_over_time_witness :
  well_sequenced
    (Reference.database_of (Reference.row Reference.gid_12345 "red-shirt" "" "product"))
  /\ (forall r',
        qr_codes
          (perform_all
             [OpScan (Reference.sample Reference.gid_12345 "red-shirt" "" "product");
              OpUpdate 1 (Reference.sample Reference.gid_12345 "blue-shirt" "" "checkout");
              OpDelete 2;
              OpCreate (Reference.sample Reference.gid_12345 "green-shirt" "" "product");
              OpScan (Reference.sample Reference.gid_12345 "red-shirt" "" "banana")]
             (Reference.database_of
                (Reference.row Reference.gid_12345 "red-shirt" "" "product"))) !! 1
        = Some r' ->
        0 <= row_scans r')
  /\ exists r',
       qr_codes
         (after (QRCodesDatastore.handleCodeScan
                   (Reference.sample Reference.gid_12345 "red-shirt" "" "product")
                   (Reference.database_of
                      (Reference.row Reference.gid_12345 "red-shirt" "" "product")))) !! 1
       = Some r'
       /\ row_scans r' = 0 + 1.
Proof.
  pose (r := Reference.row Reference.gid_12345 "red-shirt" "" "product").
  assert (Hwf := database_of_well_sequenced r).
  destruct (scan_counter_over_time (Reference.database_of r) Hwf) as [Hmono Hcount].
  split; [exact Hwf|]. split.
  - intros r'. apply (Hmono _ 1 r r'). reflexivity.
  - apply (Hcount (Reference.sample Reference.gid_12345 "red-shirt" "" "product") r).
    + apply idle_driver_ready.
    + reflexivity.
    + vm_compute. discriminate.
Defined.

(** C4, refuted as stated: updating the identifier 7 of an empty store
    neither fails nor changes anything. *)
Lemma update_of_missing_id_succeeds :
  qr_codes Reference.empty_database !! 7 = None
  /\ QRCodesDatastore.update 7
       (Reference.sample Reference.gid_12345 "red-shirt" "" "product")
       Reference.empty_database
     = (Returns true, Reference.empty_database).
Proof. split; reflexivity. Qed.

(** C4 as amended, at a store of one record. *)
Lemma update_replaces_mutable_fields_witness :
  outcome (QRCodesDatastore.update 1
             (Reference.sample "gid://shopify/ProductVariant/9" "blue-shirt" "SAVE10" "checkout")
             (Reference.database_of
                (Reference.row Reference.gid_12345 "red-shirt" "" "product")))
  = Returns true
  /\ qr_codes
       (after (QRCodesDatastore.update 1
                 (Reference.sample "gid://shopify/ProductVariant/9" "blue-shirt" "SAVE10"
                    "checkout")
                 (Reference.database_of
                    (Reference.row Reference.gid_12345 "red-shirt" "" "product")))) !! 1
     = Some (Reference.row "gid://shopify/ProductVariant/9" "blue-shirt" "SAVE10" "checkout").
Proof.
  destruct (update_replaces_mutable_fields 1
              (Reference.sample "gid://shopify/ProductVariant/9" "blue-shirt" "SAVE10"
                 "checkout")
              (Reference.database_of
                 (Reference.row Reference.gid_12345 "red-shirt" "" "product"))
              (idle_driver_ready _ _ _))
    as (Hok & _ & Hrow & _).
  split; [exact Hok|].
  exact (Hrow (Reference.row Reference.gid_12345 "red-shirt" "" "product") eq_refl).
Defined.

(** C5, refuted as stated: for the destination "banana" on a shop domain
    stored without its scheme, the scan fails with the [TypeError] of the URL
    constructor, not with the unrecognized-destination error. *)
Lemma unrecognized_destination_behind_invalid_url :
  outcome (QRCodesDatastore.handleCodeScan
             (qrcode_of_row 1 (Reference.schemeless_row "banana"))
             (Reference.database_of (Reference.schemeless_row "banana")))
  = Throws (TypeError "Invalid URL")
  /\ outcome (QRCodesDatastore.handleCodeScan
                (qrcode_of_row 1 (Reference.schemeless_row "banana"))
                (Reference.database_of (Reference.schemeless_row "banana")))
     <> Throws (QRCodesDatastore.unrecognized_destination "banana").
Proof. split; [reflexivity|discriminate]. Qed.

(** C5 as amended, at the destination "banana" on a shop domain that
    parses. *)
Lemma unrecognized_destination_fails_witness :
  (forall redirect,
     outcome (QRCodesDatastore.handleCodeScan
                (Reference.sample Reference.gid_12345 "red-shirt" "" "banana")
                Reference.empty_database)
     <> Returns redirect)
  /\ outcome (QRCodesDatastore.handleCodeScan
                (Reference.sample Reference.gid_12345 "red-shirt" "" "banana")
                Reference.empty_database)
     = Throws (QRCodesDatastore.unrecognized_destination "banana").
Proof.
  destruct (unrecognized_destination_fails
              (Reference.sample Reference.gid_12345 "red-shirt" "" "banana")
              Reference.empty_database)
    as (Hnever & Hfails & _); [discriminate..|].
  split; [exact Hnever|].
  apply (Hfails Reference.shop_url); [apply idle_driver_ready|reflexivity].
Defined.

(** C6, refuted as stated: the discount code "SAVE 10" does not stand in
    the path as it is; its space is percent-encoded. *)
Lemma discount_code_is_encoded_in_the_path :
  outcome (QRCodesDatastore.handleCodeScan
             (Reference.sample Reference.gid_12345 "red-shirt" "SAVE 10" "product")
             Reference.empty_database)
  = Returns "https://shop.myshopify.com/discount/SAVE%2010?redirect=%2Fproducts%2Fred-shirt"
  /\ outcome (QRCodesDatastore.handleCodeScan
                (Reference.sample Reference.gid_12345 "red-shirt" "SAVE 10" "product")
                Reference.empty_database)
     <> Returns (URL.site (url Reference.shop_url) +:+ "/discount/" +:+ "SAVE 10"
                 +:+ "?redirect=" +:+ urlencode ("/products/" +:+ "red-shirt")).
Proof. split; [reflexivity|discriminate]. Qed.

(** C6 as amended: without a discount code, with the code SAVE10, and
    with the code "SAVE 10". *)
Lemma product_url_witness :
  outcome (QRCodesDatastore.handleCodeScan
             (Reference.sample Reference.gid_12345 "red-shirt" "" "product")
             Reference.empty_database)
  = Returns "https://shop.myshopify.com/products/red-shirt"
  /\ outcome (QRCodesDatastore.handleCodeScan
                (Reference.sample Reference.gid_12345 "red-shirt" "SAVE10" "product")
                Reference.empty_database)
     = Returns "https://shop.myshopify.com/discount/SAVE10?redirect=%2Fproducts%2Fred-shirt"
  /\ outcome (QRCodesDatastore.handleCodeScan
                (Reference.sample Reference.gid_12345 "red-shirt" "SAVE 10" "product")
                Reference.empty_database)
     = Returns "https://shop.myshopify.com/discount/SAVE%2010?redirect=%2Fproducts%2Fred-shirt".
Proof.
  split; [|split].
  - destruct (product_url
                (Reference.sample Reference.gid_12345 "red-shirt" "" "product")
                Reference.empty_database Reference.shop_url)
      as (_ & Hplain & _);
      [apply idle_driver_ready|reflexivity|apply reference_shop_is_plain|].
    apply Hplain; reflexivity.
  - destruct (product_url
                (Reference.sample Reference.gid_12345 "red-shirt" "SAVE10" "product")
                Reference.empty_database Reference.shop_url)
      as (_ & _ & _ & Hdiscount);
      [apply idle_driver_ready|reflexivity|apply reference_shop_is_plain|].
    apply Hdiscount; [discriminate|reflexivity].
  - destruct (product_url
                (Reference.sample Reference.gid_12345 "red-shirt" "SAVE 10" "product")
                Reference.empty_database Reference.shop_url)
      as (_ & _ & Hencoded & _);
      [apply idle_driver_ready|reflexivity|apply reference_shop_is_plain|].
    apply Hencoded; [discriminate|reflexivity].
Defined.

(** C7, refuted as stated: the discount code "SAVE 10" does not stand in
    the query as it is; it is form-urlencoded. *)
Lemma discount_code_is_encoded_in_the_query :
  outcome (QRCodesDatastore.handleCodeScan
             (Reference.sample Reference.gid_12345 "red-shirt" "SAVE 10" "checkout")
             Reference.empty_database)
  = Returns "https://shop.myshopify.com/cart/12345:1?discount=SAVE+10"
  /\ outcome (QRCodesDatastore.handleCodeScan
                (Reference.sample Reference.gid_12345 "red-shirt" "SAVE 10" "checkout")
                Reference.empty_database)
     <> Returns (URL.site (url Reference.shop_url) +:+ "/cart/" +:+ "12345"
                 +:+ ":1?discount=" +:+ "SAVE 10").
Proof. split; [reflexivity|discriminate]. Qed.

(** C7 as amended: without a discount code, with the code SAVE10, and
    with the code "SAVE 10". *)
Lemma checkout_url_witness :
  outcome (QRCodesDatastore.handleCodeScan
             (Reference.sample Reference.gid_12345 "red-shirt" "" "checkout")
             Reference.empty_database)
  = Returns "https://shop.myshopify.com/cart/12345:1"
  /\ outcome (QRCodesDatastore.handleCodeScan
                (Reference.sample Reference.gid_12345 "red-shirt" "SAVE10" "checkout")
                Reference.empty_database)
     = Returns "https://shop.myshopify.com/cart/12345:1?discount=SAVE10"
  /\ outcome (QRCodesDatastore.handleCodeScan
                (Reference.sample Reference.gid_12345 "red-shirt" "SAVE 10" "checkout")
                Reference.empty_database)
     = Returns "https://shop.myshopify.com/cart/12345:1?discount=SAVE+10".
Proof.
  split; [|split].
  - destruct (checkout_url
                (Reference.sample Reference.gid_12345 "red-shirt" "" "checkout")
                Reference.empty_database Reference.shop_url "12345")
      as (Hnone & _);
      [apply idle_driver_ready|reflexivity|apply reference_shop_is_plain|reflexivity
      |discriminate|reflexivity|].
    apply Hnone. reflexivity.
  - destruct (checkout_url
                (Reference.sample Reference.gid_12345 "red-shirt" "SAVE10" "checkout")
                Reference.empty_database Reference.shop_url "12345")
      as (_ & _ & Hliteral);
      [apply idle_driver_ready|reflexivity|apply reference_shop_is_plain|reflexivity
      |discriminate|reflexivity|].
    apply Hliteral; [discriminate|reflexivity].
  - destruct (checkout_url
                (Reference.sample Reference.gid_12345 "red-shirt" "SAVE 10" "checkout")
                Reference.empty_database Reference.shop_url "12345")
      as (_ & Hencoded & _);
      [apply idle_driver_ready|reflexivity|apply reference_shop_is_plain|reflexivity
      |discriminate|reflexivity|].
    apply Hencoded. discriminate.
Defined.

(** C8, refuted as stated: in a store whose ids have reached 2^53 the
    identifier that [create] returns is the number 2^53, rounded from
    2^53 + 1: it is the id of another record, and reading it back returns
    that record, not the one created. *)
Lemma create_beyond_safe_integers_is_not_fresh :
  outcome (QRCodesDatastore.create
             (Reference.sample Reference.gid_12345 "blue-shirt" "" "product")
             (Reference.aged_database_of
                (Reference.row Reference.gid_12345 "red-shirt" "" "product")))
  = Returns 9007199254740992
  /\ qr_codes
       (Reference.aged_database_of
          (Reference.row Reference.gid_12345 "red-shirt" "" "product"))
       !! 9007199254740992
     = Some (Reference.row Reference.gid_12345 "red-shirt" "" "product")
  /\ exists stored,
       outcome (QRCodesDatastore.read 9007199254740992
                  (after (QRCodesDatastore.create
                            (Reference.sample Reference.gid_12345 "blue-shirt" ""
                               "product")
                            (Reference.aged_database_of
                               (Reference.row Reference.gid_12345 "red-shirt" ""
                                  "product")))))
       = Returns (Some stored)
       /\ handle stored = "red-shirt".
Proof.
  split; [vm_compute; reflexivity|]. split; [reflexivity|].
  eexists. split; [vm_compute; reflexivity|reflexivity].
Qed.

(** C8 as amended, at an empty store. *)
Lemma create_then_read_witness :
  exists i stored,
    outcome (QRCodesDatastore.create
               (Reference.sample Reference.gid_12345 "red-shirt" "SAVE10" "product")
               Reference.empty_database)
    = Returns i
    /\ qr_codes Reference.empty_database !! i = None
    /\ outcome (QRCodesDatastore.read i
                  (after (QRCodesDatastore.create
                            (Reference.sample Reference.gid_12345 "red-shirt" "SAVE10"
                               "product")
                            Reference.empty_database)))
       = Returns (Some stored)
    /\ scans stored = 0
    /\ handle stored = "red-shirt"
    /\ discountCode stored = "SAVE10".
Proof.
  destruct (create_then_read
              (Reference.sample Reference.gid_12345 "red-shirt" "SAVE10" "product")
              Reference.empty_database)
    as (i & db' & Hcreate & Hfresh & _ & _ & _ & _ & Hread).
  - apply idle_driver_ready.
  - reflexivity.
  - rewrite Hcreate. cbn [outcome after fst snd].
    destruct Hread as (stored & Hstored & _ & Hscans & _ & _ & _ & _ & Hhandle & _ & Hcode & _).
    + vm_compute in Hcreate. injection Hcreate as _ <-. apply idle_driver_ready.
    + exists i, stored. repeat split; assumption.
Defined.


(** C10 at the shop domain shop.myshopify.com. *)
Lemma schemeless_shop_domain_throws_after_count_witness :
  lacks_scheme "shop.myshopify.com"
  /\ outcome (QRCodesDatastore.handleCodeScan
                (qrcode_of_row 1 (Reference.schemeless_row "product"))
                (Reference.database_of (Reference.schemeless_row "product")))
     = Throws (TypeError "Invalid URL")
  /\ exists r',
       qr_codes
         (after (QRCodesDatastore.handleCodeScan
                   (qrcode_of_row 1 (Reference.schemeless_row "product"))
                   (Reference.database_of (Reference.schemeless_row "product")))) !! 1
       = Some r'
       /\ row_scans r' = 0 + 1.
Proof.
  assert (Hlacks : lacks_scheme "shop.myshopify.com")
    by (by apply no_colon_lacks_scheme).
  destruct (schemeless_shop_domain_throws_after_count
              (qrcode_of_row 1 (Reference.schemeless_row "product"))
              (Reference.database_of (Reference.schemeless_row "product"))
              Hlacks (idle_driver_ready _ _ _))
    as [Hthrow Hcount].
  split; [exact Hlacks|]. split.
  - rewrite Hthrow. reflexivity.
  - apply (Hcount (Reference.schemeless_row "product")); [reflexivity|].
    vm_compute. discriminate.
Defined.

(** * More of the code on the reference platform *)

(** X1 at a store with one record, read under its id and under another. *)
Lemma read_returns_the_stored_record_witness :
  outcome (QRCodesDatastore.read 2
             (Reference.database_of (Reference.row Reference.gid_12345 "red-shirt" "" "product")))
  = Returns None
  /\ exists q,
       outcome (QRCodesDatastore.read 1
                  (Reference.database_of
                     (Reference.row Reference.gid_12345 "red-shirt" "" "product")))
       = Returns (Some q)
       /\ id q = 1
       /\ handle q = "red-shirt"
       /\ imageUrl q = Some "https://qr.example.com/qrcodes/1/image".
Proof.
  split.
  - apply (read_returns_the_stored_record 2
             (Reference.database_of
                (Reference.row Reference.gid_12345 "red-shirt" "" "product")));
      [apply idle_driver_ready|reflexivity].
  - destruct (read_returns_the_stored_record 1
                (Reference.database_of
                   (Reference.row Reference.gid_12345 "red-shirt" "" "product"))
                (idle_driver_ready _ _ _))
      as (_ & Hsome & _).
    destruct (Hsome (Reference.row Reference.gid_12345 "red-shirt" "" "product") eq_refl)
      as (q & Hread & _ & _ & _ & _ & _ & _ & Hhandle & _ & _ & _ & _ & Hexact & _).
    destruct Hexact as [Hid Himage]; [by split|].
    exists q. repeat split; assumption.
Defined.

(** X2 at a store with one record. *)
Lemma delete_removes_the_record_witness :
  outcome (QRCodesDatastore.delete 1
             (Reference.database_of (Reference.row Reference.gid_12345 "red-shirt" "" "product")))
  = Returns true
  /\ qr_codes
       (after (QRCodesDatastore.delete 1
                 (Reference.database_of
                    (Reference.row Reference.gid_12345 "red-shirt" "" "product")))) !! 1
     = None.
Proof.
  destruct (delete_removes_the_record 1
              (Reference.database_of
                 (Reference.row Reference.gid_12345 "red-shirt" "" "product"))
              (idle_driver_ready _ _ _))
    as (Htrue & Hgone & _).
  split; assumption.
Defined.

(** X3 at a store with one record of the shop. *)
Lemma list_returns_the_records_of_the_shop_witness :
  exists l,
    outcome (QRCodesDatastore.list Reference.shop
               (Reference.database_of
                  (Reference.row Reference.gid_12345 "red-shirt" "" "product")))
    = Returns l
    /\ NoDup (id <$> l).
Proof.
  destruct (list_returns_the_records_of_the_shop Reference.shop
              (Reference.database_of
                 (Reference.row Reference.gid_12345 "red-shirt" "" "product"))
              (idle_driver_ready _ _ _))
    as (l & Hlist & _ & Hnodup & _).
  - intros i r. unfold Reference.database_of. cbn [qr_codes].
    intros [<- _]%lookup_singleton_Some. by split.
  - exists l. split; assumption.
Defined.

(** X4 at a [create] on a locked database. *)
Lemma failed_crud_changes_nothing_witness :
  failure (OpCreate (Reference.sample Reference.gid_12345 "red-shirt" "" "product"))
    (Reference.busy Reference.empty_database)
  = Some (SqliteError "SQLITE_BUSY")
  /\ qr_codes
       (perform (OpCreate (Reference.sample Reference.gid_12345 "red-shirt" "" "product"))
          (Reference.busy Reference.empty_database))
     = qr_codes (Reference.busy Reference.empty_database).
Proof.
  split; [reflexivity|].
  apply (failed_crud_changes_nothing
           (OpCreate (Reference.sample Reference.gid_12345 "red-shirt" "" "product"))
           (Reference.busy Reference.empty_database) (SqliteError "SQLITE_BUSY"));
    reflexivity.
Defined.

(** X5 at a store whose one record is deleted before the next is created:
    the new record is not given the id 1 again. *)
Lemma identifiers_are_never_reused_witness :
  exists i db',
    QRCodesDatastore.create (Reference.sample Reference.gid_12345 "blue-shirt" "" "product")
      (perform_all ([OpRead 1] ++ [OpDelete 1])
         (Reference.database_of
            (Reference.row Reference.gid_12345 "red-shirt" "" "product")))
    = (Returns i, db')
    /\ 1 < i.
Proof.
  eexists _, _. split; [reflexivity|].
  eapply (identifiers_are_never_reused
            (Reference.database_of
               (Reference.row Reference.gid_12345 "red-shirt" "" "product"))
            [OpRead 1] [OpDelete 1]
            (Reference.sample Reference.gid_12345 "blue-shirt" "" "product")).
  - apply database_of_well_sequenced.
  - reflexivity.
  - reflexivity.
  - reflexivity.
Defined.

(** X6 at three scans of a record. *)
Lemma scans_add_up_witness :
  exists r',
    qr_codes
      (perform_all
         (replicate 3 (OpScan (Reference.sample Reference.gid_12345 "red-shirt" "" "product")))
         (Reference.database_of
            (Reference.row Reference.gid_12345 "red-shirt" "" "product"))) !! 1
    = Some r'
    /\ row_scans r' = 0 + 3.
Proof.
  destruct (scans_add_up 3
              (Reference.sample Reference.gid_12345 "red-shirt" "" "product")
              (Reference.database_of
                 (Reference.row Reference.gid_12345 "red-shirt" "" "product"))
              (Reference.row Reference.gid_12345 "red-shirt" "" "product"))
    as (r' & Hr' & Hscans & _); [reflexivity|reflexivity|discriminate|].
  exists r'. split; assumption.
Defined.

(** X8 at a record scanned on the store that holds it and on an empty one. *)
Lemma scan_outcome_ignores_the_store_witness :
  outcome (QRCodesDatastore.handleCodeScan
             (Reference.sample Reference.gid_12345 "red-shirt" "" "product")
             (Reference.database_of
                (Reference.row Reference.gid_12345 "red-shirt" "" "product")))
  = outcome (QRCodesDatastore.handleCodeScan
               (Reference.sample Reference.gid_12345 "red-shirt" "" "product")
               Reference.empty_database)
  /\ qr_codes
       (after (QRCodesDatastore.handleCodeScan
                 (Reference.sample Reference.gid_12345 "red-shirt" "" "product")
                 Reference.empty_database))
     = qr_codes Reference.empty_database.
Proof.
  destruct (scan_outcome_ignores_the_store
              (Reference.sample Reference.gid_12345 "red-shirt" "" "product")
              Reference.empty_database
              (Reference.database_of
                 (Reference.row Reference.gid_12345 "red-shirt" "" "product"))
              (idle_driver_ready _ _ _) (idle_driver_ready _ _ _))
    as [Hsame Hnothing].
  split; [symmetry; exact Hsame|]. apply Hnothing. reflexivity.
Defined.


(** X10 at a record whose handle is changed. *)
Lemma update_then_read_witness :
  exists stored,
    outcome (QRCodesDatastore.read 1
               (after (QRCodesDatastore.update 1
                         (Reference.sample Reference.gid_12345 "blue-shirt" "" "product")
                         (Reference.database_of
                            (Reference.row Reference.gid_12345 "red-shirt" "" "product")))))
    = Returns (Some stored)
    /\ handle stored = "blue-shirt"
    /\ shopDomain stored = Reference.shop
    /\ id stored = 1.
Proof.
  destruct (update_then_read 1
              (Reference.sample Reference.gid_12345 "blue-shirt" "" "product")
              (Reference.database_of
                 (Reference.row Reference.gid_12345 "red-shirt" "" "product"))
              (Reference.row Reference.gid_12345 "red-shirt" "" "product"))
    as (stored & Hread & _ & _ & _ & Hhandle & _ & _ & _ & Hshop & _ & _ & _ & Hid & _).
  - apply idle_driver_ready.
  - left. reflexivity.
  - reflexivity.
  - exists stored. split; [exact Hread|]. split; [exact Hhandle|].
    split; [exact Hshop|]. apply Hid. by split.
Defined.

(** X11 at a string with two occurrences of the prefix after an "x". *)
Lemma replace_variant_gid_leftmost_witness :
  replace_variant_gid
    "xgid://shopify/ProductVariant/12/gid://shopify/ProductVariant/3"
  = "x12/gid://shopify/ProductVariant/3".
Proof.
  apply (replace_variant_gid_leftmost "x" "1" "2/gid://shopify/ProductVariant/3").
  - apply no_g_no_earlier_gid. reflexivity.
  - reflexivity.
Defined.

(** X13 at a quantity of 3 and a discount code with a space. *)
Lemma checkout_with_a_quantity_witness :
  productCheckoutURL Reference.shop Reference.gid_12345 (Some 3) (Some "SAVE 10")
  = Returns "https://shop.myshopify.com/cart/12345:3?discount=SAVE+10".
Proof.
  apply (checkout_with_a_quantity Reference.shop Reference.shop_url "12345" (Some 3)
           (Some "SAVE 10"));
    [by split|reflexivity|reflexivity|reflexivity|reflexivity|discriminate|reflexivity].
Defined.

(** X14 at the host shop.myshopify.com. *)
Lemma helpers_reject_a_host_without_scheme_witness :
  lacks_scheme "shop.myshopify.com"
  /\ productViewURL "shop.myshopify.com" "red-shirt" None = Throws (TypeError "Invalid URL")
  /\ productCheckoutURL "shop.myshopify.com" Reference.gid_12345 None None
     = Throws (TypeError "Invalid URL").
Proof.
  assert (Hlacks : lacks_scheme "shop.myshopify.com")
    by (by apply no_colon_lacks_scheme).
  split; [exact Hlacks|].
  exact (helpers_reject_a_host_without_scheme "shop.myshopify.com" "red-shirt"
           Reference.gid_12345 None None Hlacks).
Defined.

(** X15 at the shop domain localhost:3000, on the platform that parses it. *)
Lemma opaque_shop_url_is_the_redirect_witness :
  outcome (@QRCodesDatastore.handleCodeScan ReferenceOpaque.platform
             (qrcode_of_row 1 (ReferenceOpaque.row "product"))
             (Reference.database_of (ReferenceOpaque.row "product")))
  = Returns "localhost:3000"
  /\ outcome (@QRCodesDatastore.handleCodeScan ReferenceOpaque.platform
                (qrcode_of_row 1 (ReferenceOpaque.row "checkout"))
                (Reference.database_of (ReferenceOpaque.row "checkout")))
     = Returns "localhost:3000".
Proof.
  split.
  - apply (@opaque_shop_url_is_the_redirect ReferenceOpaque.platform
             (qrcode_of_row 1 (ReferenceOpaque.row "product"))
             (Reference.database_of (ReferenceOpaque.row "product"))
             ReferenceOpaque.localhost_3000);
      [apply idle_driver_ready|reflexivity|reflexivity|reflexivity|reflexivity
      |left; reflexivity].
  - apply (@opaque_shop_url_is_the_redirect ReferenceOpaque.platform
             (qrcode_of_row 1 (ReferenceOpaque.row "checkout"))
             (Reference.database_of (ReferenceOpaque.row "checkout"))
             ReferenceOpaque.localhost_3000);
      [apply idle_driver_ready|reflexivity|reflexivity|reflexivity|reflexivity
      |right; reflexivity].
Defined.

(** X16 at a file that holds the table with one row. *)
Lemma init_keeps_an_existing_table_witness :
  exists s',
    Schema.init
      (ReferenceFile.old_file (Reference.row Reference.gid_12345 "red-shirt" "" "product"))
    = (Returns tt, s')
    /\ Schema.instance s' = true
    /\ qr_codes (Schema.content s')
       = {[ 1 := Reference.row Reference.gid_12345 "red-shirt" "" "product" ]}.
Proof.
  destruct (init_keeps_an_existing_table
              (ReferenceFile.old_file
                 (Reference.row Reference.gid_12345 "red-shirt" "" "product")))
    as (s' & Hinit & Hinstance & _ & Hrows & _);
    [apply bool_decide_eq_true_2; set_solver|apply idle_driver_ready|].
  exists s'. split; [exact Hinit|]. split; [exact Hinstance|exact Hrows].
Defined.

(** X17 at a new file. *)
Lemma init_creates_a_missing_table_witness :
  exists s',
    Schema.init ReferenceFile.new_file = (Returns tt, s')
    /\ Schema.has_table s' = true
    /\ qr_codes (Schema.content s') = ∅
    /\ sqlite_sequence (Schema.content s') = 0.
Proof.
  destruct (init_creates_a_missing_table ReferenceFile.new_file)
    as (s' & Hinit & _ & Htable & _ & Hrows & Hseq);
    [apply bool_decide_eq_false_2; set_solver|apply idle_driver_ready
    |apply idle_driver_ready|].
  exists s'. repeat split; assumption.
Defined.

(** X18 at a new file, set up twice. *)
Lemma init_again_changes_nothing_witness :
  exists s1 s2,
    Schema.init ReferenceFile.new_file = (Returns tt, s1)
    /\ Schema.init s1 = (Returns tt, s2)
    /\ Schema.tables s2 = Schema.tables s1
    /\ qr_codes (Schema.content s2) = qr_codes (Schema.content s1).
Proof.
  assert (Hinit : Schema.init ReferenceFile.new_file
                  = (Returns tt, snd (Schema.init ReferenceFile.new_file)))
    by (rewrite init_cases; reflexivity).
  destruct (init_again_changes_nothing ReferenceFile.new_file tt _ Hinit)
    as (_ & _ & Hagain).
  destruct Hagain as (s2 & Hsecond & Htables & Hrows & _).
  - rewrite init_cases. left. reflexivity.
  - eexists _, s2. split; [exact Hinit|]. repeat split; assumption.
Defined.

(** X19 at a new file that is locked. *)
Lemma failed_init_creates_nothing_witness :
  exists s',
    Schema.init ReferenceFile.locked_file = (Throws (SqliteError "SQLITE_BUSY"), s')
    /\ Schema.instance s' = true
    /\ Schema.tables s' = ∅.
Proof.
  assert (Hinit : Schema.init ReferenceFile.locked_file
                  = (Throws (SqliteError "SQLITE_BUSY"),
                     snd (Schema.init ReferenceFile.locked_file)))
    by (rewrite init_cases; reflexivity).
  destruct (failed_init_creates_nothing ReferenceFile.locked_file
              (SqliteError "SQLITE_BUSY") _ Hinit)
    as (_ & Hinstance & Htables & _).
  eexists. split; [exact Hinit|]. split; [exact Hinstance|exact Htables].
Defined.

(** X20 at a new file, before [init] and after it, on a driver that
    refuses the third query. *)
Lemma statements_need_init_witness :
  fst (Schema.__query (Schema.OnQrCodes (SelectById 1)) ReferenceFile.new_file)
  = Throws (TypeError "Cannot read properties of undefined (reading 'db')")
  /\ exists s1,
       Schema.init ReferenceFile.flaky_file = (Returns tt, s1)
       /\ fst (Schema.__query (Schema.OnQrCodes (SelectById 1)) s1)
          = Throws (SqliteError "SQLITE_BUSY").
Proof.
  split.
  - destruct (statements_need_init (SelectById 1) ReferenceFile.new_file)
      as (Hbefore & _).
    rewrite Hbefore; reflexivity.
  - assert (Hinit : Schema.init ReferenceFile.flaky_file
                    = (Returns tt, snd (Schema.init ReferenceFile.flaky_file)))
      by (rewrite init_cases; reflexivity).
    destruct (statements_need_init (SelectById 1) ReferenceFile.flaky_file)
      as (_ & _ & Hafter).
    eexists. split; [exact Hinit|].
    destruct (Hafter tt _ (SqliteError "SQLITE_BUSY")
                (snd (Schema.__query (Schema.OnQrCodes (SelectById 1))
                        (snd (Schema.init ReferenceFile.flaky_file))))
                Hinit)
      as [(err & _ & Herr)|[Hfull _]].
    + rewrite init_cases. reflexivity.
    + rewrite init_cases. reflexivity.
    + discriminate Hfull.
Defined.
